(** * flock-server: the submission pipeline of [flock_server/api.py] and the
      token registry of [gateway/app.py], as executable Rocq definitions.

    Python values are embedded as they are at run time: JSON documents as an
    inductive type, [dict]s as insertion-ordered association lists, the dict
    objects of a request as cells of a heap (so that the in-place updates of
    [submit] are visible through every reference), handlers as functions in a
    state-and-exception monad over the server's world. *)

From Stdlib Require Import ZArith String Ascii List Lia Bool.
From Stdlib Require Import DecimalString.
From Stdlib Require Import Floats.SpecFloat.
From stdpp Require Import base option list strings gmap.

Local Open Scope string_scope.
Local Open Scope list_scope.

(** ** JSON values, as [json.loads] builds them *)

#[local] Unset Elimination Schemes.
Inductive json : Type :=
| JNull
| JBool (b : bool)
| JNum (n : Z)                         (* a Python [int] *)
| JFloat (f : spec_float)              (* a Python [float] *)
| JStr (s : string)
| JArr (items : list json)
| JObj (fields : list (string * json)).
#[local] Set Elimination Schemes.

(** A Python [dict] with string keys: insertion-ordered, one entry per key. *)
Abbreviation dict := (list (string * json)).

Fixpoint dict_get (k : string) (d : dict) : option json :=
  match d with
  | [] => None
  | (k', v) :: d' => if String.eqb k k' then Some v else dict_get k d'
  end.

(** [k in d] *)
Definition dict_has (k : string) (d : dict) : bool :=
  match dict_get k d with Some _ => true | None => false end.

(** [d[k] = v]: an existing key keeps its position, a new one goes last. *)
Fixpoint dict_set (k : string) (v : json) (d : dict) : dict :=
  match d with
  | [] => [(k, v)]
  | (k', v') :: d' =>
      if String.eqb k k' then (k, v) :: d' else (k', v') :: dict_set k v d'
  end.

(** [s == v] for a Python [str] [s]: only an equal [str] compares equal. *)
Definition str_eq (s : string) (v : json) : bool :=
  match v with JStr t => String.eqb s t | _ => false end.

(** [v in names] for a list of [str]. *)
Definition str_in (v : json) (names : list string) : bool :=
  existsb (fun s => str_eq s v) names.

(** Truth value of a JSON value ([not v] is its negation). *)
Definition truthy (v : json) : bool :=
  match v with
  | JNull => false
  | JBool b => b
  | JNum n => negb (Z.eqb n 0)
  | JFloat f => match f with S754_zero _ => false | _ => true end
  | JStr s => negb (String.eqb s "")
  | JArr items => match items with [] => false | _ => true end
  | JObj fields => match fields with [] => false | _ => true end
  end.

(** ** Exceptions and results *)

Inductive exn : Type :=
| TypeError | ValueError | OverflowError | KeyError | IndexError
| AttributeError
| BadRequest.                          (* werkzeug's, raised by [request.json] *)

Inductive result (A : Type) : Type :=
| Ok (a : A)
| Raise (e : exn).
Arguments Ok {A} a.
Arguments Raise {A} e.

(** [d[k]] as an expression. *)
Definition dict_item (k : string) (d : dict) : result json :=
  match dict_get k d with Some v => Ok v | None => Raise KeyError end.

(** ** [int(x)] *)

(** The ASCII characters Python counts as whitespace. *)
Definition is_space (c : ascii) : bool :=
  let n := nat_of_ascii c in
  (Nat.eqb n 32 || (Nat.leb 9 n && Nat.leb n 13)
   || (Nat.leb 28 n && Nat.leb n 31))%bool.

Definition is_digit (c : ascii) : bool :=
  let n := nat_of_ascii c in (Nat.leb 48 n && Nat.leb n 57)%bool.

Definition digit_val (c : ascii) : Z := Z.of_nat (nat_of_ascii c) - 48.

Fixpoint lstrip (cs : list ascii) : list ascii :=
  match cs with
  | c :: cs' => if is_space c then lstrip cs' else cs
  | [] => []
  end.

Definition strip (cs : list ascii) : list ascii :=
  rev (lstrip (rev (lstrip cs))).

(** Decimal digits with single underscores between them. *)
Fixpoint int_digits (acc : Z) (after_digit : bool) (cs : list ascii)
  : option Z :=
  match cs with
  | [] => if after_digit then Some acc else None
  | c :: cs' =>
      if is_digit c then int_digits (10 * acc + digit_val c) true cs'
      else if Ascii.eqb c "_"
           then (if after_digit then int_digits acc false cs' else None)
           else None
  end.

(** [int(s)] for a [str] of ASCII characters: surrounding whitespace,
    an optional sign, decimal digits. *)
Definition int_of_str (s : string) : option Z :=
  match strip (list_ascii_of_string s) with
  | "-"%char :: cs => option_map Z.opp (int_digits 0 false cs)
  | "+"%char :: cs => int_digits 0 false cs
  | cs => int_digits 0 false cs
  end.

(** [int(f)] for a [float]: truncation towards zero. *)
Definition int_of_float (f : spec_float) : result Z :=
  match f with
  | S754_zero _ => Ok 0%Z
  | S754_infinity _ => Raise OverflowError
  | S754_nan => Raise ValueError
  | S754_finite sign m e =>
      let mag := (if (0 <=? e)%Z then Z.shiftl (Zpos m) e
                  else Z.shiftr (Zpos m) (- e))%Z in
      Ok (if sign then (- mag)%Z else mag)
  end.

Definition py_int (v : json) : result Z :=
  match v with
  | JNull => Raise TypeError
  | JBool b => Ok (if b then 1 else 0)%Z
  | JNum n => Ok n
  | JFloat f => int_of_float f
  | JStr s => match int_of_str s with Some n => Ok n | None => Raise ValueError end
  | JArr _ => Raise TypeError
  | JObj _ => Raise TypeError
  end.

(** ** [datetime] *)

Record datetime : Type := mk_datetime {
  year : Z; month : Z; day : Z; hour : Z; minute : Z; second : Z
}.

(** Proleptic Gregorian date of a day number counted from 1970-01-01. *)
Definition civil_from_days (days : Z) : Z * Z * Z :=
  let z := (days + 719468)%Z in
  let era := (z / 146097)%Z in
  let doe := (z - era * 146097)%Z in
  let yoe := ((doe - doe / 1460 + doe / 36524 - doe / 146096) / 365)%Z in
  let doy := (doe - (365 * yoe + yoe / 4 - yoe / 100))%Z in
  let mp := ((5 * doy + 2) / 153)%Z in
  let d := (doy - (153 * mp + 2) / 5 + 1)%Z in
  let m := (if mp <? 10 then mp + 3 else mp - 9)%Z in
  let y := (yoe + era * 400 + (if m <=? 2 then 1 else 0))%Z in
  (y, m, d).


(** Epoch seconds of 0001-01-01T00:00:00 and of 9999-12-31T23:59:59. *)
Definition MIN_TIMESTAMP : Z := (-62135596800)%Z.
Definition MAX_TIMESTAMP : Z := 253402300799%Z.

(** [datetime.utcfromtimestamp(t)] for an [int]: years outside 1..9999 are
    refused ([OverflowError] once [t] does not fit the platform's time
    type). *)
Definition utcfromtimestamp (t : Z) : result datetime :=
  if ((t <? - 2 ^ 63) || (2 ^ 63 <=? t))%Z then Raise OverflowError
  else if ((t <? MIN_TIMESTAMP) || (MAX_TIMESTAMP <? t))%Z then Raise ValueError
  else
    let days := (t / 86400)%Z in
    let rem := (t mod 86400)%Z in
    let '(y, m, d) := civil_from_days days in
    Ok (mk_datetime y m d (rem / 3600) ((rem mod 3600) / 60) (rem mod 60)).

Definition digit_char (n : Z) : ascii := ascii_of_nat (48 + Z.to_nat (n mod 10)).

Definition pad2 (n : Z) : string :=
  String (digit_char (n / 10)) (String (digit_char n) "").

Definition pad4 (n : Z) : string :=
  String (digit_char (n / 1000)) (String (digit_char (n / 100)) (pad2 n)).

(** [dt.strftime("%Y-%m-%d")], with the year in four digits as the
    library documents it (some C libraries leave years below 1000
    unpadded). *)
Definition strftime_date (dt : datetime) : string :=
  pad4 (year dt) ++ "-" ++ pad2 (month dt) ++ "-" ++ pad2 (day dt).

(** [dt.strftime("%Y-%m-%dT%H:%M:%S.000Z")] *)
Definition strftime_iso (dt : datetime) : string :=
  strftime_date dt ++ "T" ++ pad2 (hour dt) ++ ":" ++ pad2 (minute dt)
    ++ ":" ++ pad2 (second dt) ++ ".000Z".

(** [str(i)] for a list index. *)
Definition str_of_nat (i : nat) : string :=
  NilEmpty.string_of_uint (Nat.to_uint i).


(** ** The server's world *)

(** A document of the [user] index ([elasticsearch.User]). *)
Record User : Type := mk_User {
  username : string;
  name : string;
  token : string
}.

(** One [es.index(index=..., doc_type=..., body=...)] call: the body is
    serialised when the call is made. *)
Record es_doc : Type := mk_es_doc {
  es_index_name : string;
  es_doc_type : string;
  es_body : dict
}.

(** Address of a dict object. *)
Abbreviation addr := nat.

(** What a call passes as a dict argument: a reference to an object that
    exists already, or a dict built by a literal at the call. *)
Inductive payload : Type :=
| Ref (a : addr)
| Lit (d : dict).

Record world : Type := mk_world {
  user_index : list User;               (* the [user] index *)
  es_log : list es_doc;                 (* documents indexed so far *)
  kb_log : list (string * payload);     (* [keybase_notifications.add] calls *)
  heap : list dict;                     (* the dict objects allocated so far *)
  ticks : nat;                          (* how often the clock was read *)
  draws : nat                           (* how many tokens were drawn *)
}.

Definition set_user_index (f : list User -> list User) (w : world) : world :=
  mk_world (f (user_index w)) (es_log w) (kb_log w) (heap w) (ticks w) (draws w).
Definition set_es_log (f : list es_doc -> list es_doc) (w : world) : world :=
  mk_world (user_index w) (f (es_log w)) (kb_log w) (heap w) (ticks w) (draws w).
Definition set_kb_log (f : list (string * payload) -> list (string * payload))
  (w : world) : world :=
  mk_world (user_index w) (es_log w) (f (kb_log w)) (heap w) (ticks w) (draws w).
Definition set_heap (f : list dict -> list dict) (w : world) : world :=
  mk_world (user_index w) (es_log w) (kb_log w) (f (heap w)) (ticks w) (draws w).
Definition set_ticks (f : nat -> nat) (w : world) : world :=
  mk_world (user_index w) (es_log w) (kb_log w) (heap w) (f (ticks w)) (draws w).
Definition set_draws (f : nat -> nat) (w : world) : world :=
  mk_world (user_index w) (es_log w) (kb_log w) (heap w) (ticks w) (f (draws w)).

(** The object at an address (the empty dict where nothing is allocated). *)
Definition obj (h : list dict) (a : addr) : dict := default [] (h !! a).

(** The dict a payload denotes, read through the heap. *)
Definition payload_dict (h : list dict) (p : payload) : dict :=
  match p with Ref a => obj h a | Lit d => d end.

(** ** The handler monad: state that survives a raise *)

Definition M (A : Type) : Type := world -> world * result A.

Definition ret {A} (a : A) : M A := fun w => (w, Ok a).
Definition raise {A} (e : exn) : M A := fun w => (w, Raise e).
Definition bind {A B} (m : M A) (k : A -> M B) : M B :=
  fun w => match m w with
           | (w', Ok a) => k a w'
           | (w', Raise e) => (w', Raise e)
           end.
Definition lift {A} (r : result A) : M A := fun w => (w, r).
Definition gets {A} (f : world -> A) : M A := fun w => (w, Ok (f w)).
Definition modify (f : world -> world) : M unit := fun w => (f w, Ok tt).

Notation "x <- m ;; k" := (bind m (fun x => k))
  (at level 100, m at next level, right associativity).
Notation "m ;;; k" := (bind m (fun _ => k))
  (at level 100, right associativity).

(** [for x in xs: body(x)] *)
Fixpoint for_each {A} (body : A -> M unit) (xs : list A) : M unit :=
  match xs with
  | [] => ret tt
  | x :: xs' => body x ;;; for_each body xs'
  end.

(** [a[k] = v] on the object at address [a]. *)
Definition obj_set (a : addr) (k : string) (v : json) : M unit :=
  modify (set_heap (fun h => <[a := dict_set k v (obj h a)]> h)).

(** Allocation of the dict objects of a parsed array, in order. *)
Definition alloc (ds : list dict) : M (list addr) :=
  fun w => (set_heap (fun h => h ++ ds) w,
            Ok (seq (length (heap w)) (length ds))).

(** An HTTP response: JSON body and status code. *)
Definition response : Type := dict * Z.

(** A request as a handler sees it: [request.authorization] and
    [request.json] ([None] where reading it raises). *)
Record request : Type := mk_request {
  authorization : option (string * string);
  req_json : option json
}.

(** ** [flock_server/api.py] *)

Module Api.

(** An entry of [keybase_notifications.notifications]: its ["type"]
    (["osquery"] or another category) and whether it is enabled. *)
Record notification_settings : Type := mk_settings {
  ntype : string;
  enabled : bool
}.

Section Handlers.

(** [keybase_notifications.notifications], the catalog of notification
    kinds (its table lives outside the files modelled here). *)
Variable notifications : list (string * notification_settings).
(** What [datetime.now()] returns at its n-th reading. *)
Variable clock : nat -> datetime.
(** What [secrets.token_hex(16)] returns at its n-th draw. *)
Variable token_hex : nat -> string.

(** [Search(index="user").query("match", ...).execute()]: the documents of
    the [user] index whose fields equal the queried values. *)
Definition search_user (p : User -> bool) : M (list User) :=
  gets (fun w => List.filter p (user_index w)).

Definition by_username (uname : string) (u : User) : bool :=
  String.eqb (username u) uname.

Definition by_username_token (uname tok : string) (u : User) : bool :=
  (String.eqb (username u) uname && String.eqb (token u) tok)%bool.

(** Modelled from the spec: [KeybaseNotifications.add(kind, details)] of
    flock_server/keybase_notifications.py, which is not among the sources:
    it hands one notification event of the given kind, with the given
    payload, to the dispatcher.  The world records the call. *)
Definition kb_add (kind : string) (p : payload) : M unit :=
  modify (set_kb_log (fun l => l ++ [(kind, p)])).

(** [es.index(index=index, doc_type=doc_type, body=doc)] for the object at
    [a]. *)
Definition es_index (index doc_type : string) (a : addr) : M unit :=
  modify (fun w =>
    set_es_log (fun l => l ++ [mk_es_doc index doc_type (obj (heap w) a)]) w).

Definition datetime_now : M datetime :=
  fun w => (set_ticks S w, Ok (clock (ticks w))).

Definition secrets_token_hex : M string :=
  fun w => (set_draws S w, Ok (token_hex (draws w))).

Definition check_auth (uname tok : string) : M bool :=
  r <- search_user (by_username_token uname tok) ;;
  ret (Nat.eqb (length r) 1).

Definition authenticate : response := ([], 401%Z).

(** The handlers behind [requires_auth] read [request.authorization]; the
    decorator passes on the credentials it has checked. *)
Definition requires_auth (f : string * string -> request -> M response)
  (req : request) : M response :=
  match authorization req with
  | None => ret authenticate
  | Some (uname, tok) =>
      ok <- check_auth uname tok ;;
      if ok then f (uname, tok) req else ret authenticate
  end.

(** The debug log line of [api_error] is not part of the world. *)
Definition api_error (error_msg : string) : response :=
  ([("error", JBool true); ("error_msg", JStr error_msg)], 400%Z).

Definition api_success (success_obj : dict) : response :=
  (dict_set "error" (JBool false) success_obj, 200%Z).

Definition get_name (auth : string * string) : M json :=
  results <- search_user (by_username (fst auth)) ;;
  match results with
  | [user] => ret (JStr (name user))
  | _ => ret JNull
  end.

Definition char_in (c : ascii) (s : string) : bool :=
  existsb (Ascii.eqb c) (list_ascii_of_string s).

Definition valid_chars : string :=
  "abcdefghijklmnopqrstuvwxyzABCDEFGHIJKLMNOPQRSTUVWXYZ01234567890_-".

Definition invalid_chars : string := "`{}!@#$%^&*_".

Definition username_ok (uname : string) : bool :=
  forallb (fun c => char_in c valid_chars) (list_ascii_of_string uname).

Definition clean_name (nm : string) : string :=
  string_of_list_ascii
    (List.filter (fun c => negb (char_in c invalid_chars))
       (list_ascii_of_string nm)).

(** [register], for bodies whose [username] and [name] are JSON scalars
    (iterating a number, a boolean or null raises [TypeError]; array and
    object values of these two fields are counted with them). *)
Definition register (req : request) : M response :=
  match req_json req with
  | None => raise BadRequest
  | Some body =>
    if negb (truthy body) then ret (api_error "Invalid JSON object") else
    match body with
    | JObj d =>
      let uname := default JNull (dict_get "username" d) in
      let nm := default (JStr "") (dict_get "name" d) in
      if negb (truthy uname) then ret (api_error "You must provide a username")
      else
        match uname, nm with
        | JStr uname, JStr nm =>
          if negb (username_ok uname) then
            ret (api_error
              "Usernames must only contain letters, numbers, '-', or '_'")
          else
            let nm := clean_name nm in
            r <- search_user (by_username uname) ;;
            if negb (Nat.eqb (length r) 0) then
              kb_add "user_already_exists"
                (Lit [("username", JStr uname); ("name", JStr nm)]) ;;;
              ret (api_error ("Your computer (" ++ uname
                     ++ ") is already registered with this server")%string)
            else
              tok <- secrets_token_hex ;;
              modify (set_user_index (fun l => l ++ [mk_User uname nm tok])) ;;;
              kb_add "user_registered"
                (Lit [("username", JStr uname); ("name", JStr nm)]) ;;;
              ret (api_success [("auth_token", JStr tok)])
        | JStr uname, _ =>
          if negb (username_ok uname) then
            ret (api_error
              "Usernames must only contain letters, numbers, '-', or '_'")
          else raise TypeError
        | _, _ => raise TypeError
        end
    | _ => raise AttributeError
    end
  end.

(** The validation loop of [submit]: the error message of the first item
    that is refused. *)
Definition check_item (uname : string) (i : nat) (doc : json)
  : option string :=
  match doc with
  | JObj d =>
      match dict_get "hostIdentifier" d with
      | Some v =>
          if str_eq uname v then None
          else Some ("Item " ++ str_of_nat i
                       ++ " does not contain the correct hostIdentifier")%string
      | None => Some ("Item " ++ str_of_nat i
                        ++ " does not contain the correct hostIdentifier")%string
      end
  | _ => Some ("Item " ++ str_of_nat i ++ " is not an object")%string
  end.

Fixpoint validate (uname : string) (i : nat) (docs : list json)
  : option string :=
  match docs with
  | [] => None
  | doc :: rest =>
      match check_item uname i doc with
      | Some msg => Some msg
      | None => validate uname (S i) rest
      end
  end.

(** The dict behind a JSON object (items that passed validation are
    objects). *)
Definition as_dict (doc : json) : dict :=
  match doc with JObj d => d | _ => [] end.

Definition notification_names : list string :=
  List.map fst
    (List.filter (fun kv => String.eqb (ntype (snd kv)) "osquery")
       notifications).

(** Convert 'unixTime' to '@timestamp', for the doc at address [a]. *)
Definition convert_unixtime (a : addr) : M unit :=
  doc <- gets (fun w => obj (heap w) a) ;;
  if dict_has "unixTime" doc then
    v <- lift (dict_item "unixTime" doc) ;;
    t <- lift (py_int v) ;;
    dt <- lift (utcfromtimestamp t) ;;
    obj_set a "@timestamp" (JStr (strftime_iso dt))
  else ret tt.

(** The body of the write loop, for the doc at address [a]. *)
Definition index_doc (uname : string) (user : User) (a : addr) : M unit :=
  convert_unixtime a ;;;
  obj_set a "username" (JStr uname) ;;;
  obj_set a "user_name" (JStr (name user)) ;;;
  now <- datetime_now ;;
  es_index ("flock-" ++ strftime_date now)%string "osquery" a.

(** [notification_docs[key].append(a)] on a [defaultdict(list)]. *)
Fixpoint nd_append (key : string) (a : addr) (nd : list (string * list addr))
  : list (string * list addr) :=
  match nd with
  | [] => [(key, [a])]
  | (k, v) :: nd' =>
      if String.eqb key k then (k, v ++ [a]) :: nd'
      else (k, v) :: nd_append key a nd'
  end.

(** One round of the grouping loop; only a [str] can be equal to one of the
    notification names, and it is then the key. *)
Definition collect (h : list dict) (nd : list (string * list addr)) (a : addr)
  : list (string * list addr) :=
  match dict_get "name" (obj h a) with
  | Some (JStr k) =>
      if str_in (JStr k) notification_names then nd_append k a nd else nd
  | _ => nd
  end.

Definition group_docs (h : list dict) (docs : list addr)
  : list (string * list addr) :=
  fold_left (collect h) docs [].

Definition action_is (s : string) (doc : dict) : bool :=
  match dict_get "action" doc with
  | Some v => str_eq s v
  | None => false
  end.

(** The counting loop of a burst: added, removed, other. *)
Definition count_doc (h : list dict) (c : nat * nat * nat) (a : addr)
  : nat * nat * nat :=
  let '(added_count, removed_count, other_count) := c in
  if action_is "added" (obj h a) then (S added_count, removed_count, other_count)
  else if action_is "removed" (obj h a)
       then (added_count, S removed_count, other_count)
       else (added_count, removed_count, S other_count).

Definition summary (uname : string) (user : User) (c : nat * nat * nat)
  : dict :=
  let '(added_count, removed_count, other_count) := c in
  [("type", JStr "summary");
   ("username", JStr uname);
   ("name", JStr (name user));
   ("added_count", JNum (Z.of_nat added_count));
   ("removed_count", JNum (Z.of_nat removed_count));
   ("other_count", JNum (Z.of_nat other_count))].

(** The body of the send loop, for one item of [notification_docs]. *)
Definition notify (uname : string) (user : User) (kv : string * list addr)
  : M unit :=
  let '(key, value) := kv in
  if Nat.eqb (length value) 1 then
    match value with
    | a :: _ => kb_add key (Ref a)
    | [] => raise IndexError
    end
  else if Nat.ltb 1 (length value) then
    h <- gets heap ;;
    kb_add key (Lit (summary uname user (fold_left (count_doc h) value (0, 0, 0))))
  else ret tt.

(** The classification step of [submit]: grouping, then the send loop. *)
Definition classify (uname : string) (user : User) (docs : list addr)
  : M unit :=
  h <- gets heap ;;
  for_each (notify uname user) (group_docs h docs).

Definition submit (auth : string * string) (req : request) : M response :=
  match req_json req with
  | None => ret (api_error "Invalid JSON object")
  | Some docs =>
    if negb (truthy docs) then ret (api_error "Invalid JSON object") else
    match docs with
    | JArr items =>
      match validate (fst auth) 0 items with
      | Some msg => ret (api_error msg)
      | None =>
        results <- search_user (by_username (fst auth)) ;;
        match results with
        | [] => raise IndexError
        | user :: _ =>
          docs <- alloc (List.map as_dict items) ;;
          for_each (index_doc (fst auth) user) docs ;;;
          classify (fst auth) user docs ;;;
          ret (api_success
                 [("processed_count", JNum (Z.of_nat (length docs)))])
        end
      end
    | _ => ret (api_error "Data is not an array")
    end
  end.

(** The validation loop of [submit_flock_logs]. *)
Definition check_log_item (i : nat) (doc : json) : option string :=
  match doc with
  | JObj d =>
      match dict_get "type" d with
      | None => Some ("Item " ++ str_of_nat i ++ " does not contain a type field")%string
      | Some ty =>
          if negb (dict_has "timestamp" d) then
            Some ("Item " ++ str_of_nat i
                    ++ " does not contain a timestamp field")%string
          else if (str_in ty ["enable_twig"; "disable_twig"]
                   && negb (dict_has "twig_id" d))%bool then
            Some ("Item " ++ str_of_nat i
                    ++ " is about a twig, but does not contain a twig_id field")%string
          else None
      end
  | _ => Some ("Item " ++ str_of_nat i ++ " is not an object")%string
  end.

Fixpoint validate_logs (i : nat) (docs : list json) : option string :=
  match docs with
  | [] => None
  | doc :: rest =>
      match check_log_item i doc with
      | Some msg => Some msg
      | None => validate_logs (S i) rest
      end
  end.

(** The body of the notification loop of [submit_flock_logs]. *)
Definition notify_log (auth : string * string) (doc : json) : M unit :=
  ty <- lift (dict_item "type" (as_dict doc)) ;;
  if str_in ty ["server_enabled"; "server_disabled";
                "twigs_enabled"; "twigs_disabled"] then
    nm <- get_name auth ;;
    let details := [("username", JStr (fst auth)); ("name", nm)] in
    details <-
      (if str_in ty ["twigs_enabled"; "twigs_disabled"] then
         ids <- lift (dict_item "twig_ids" (as_dict doc)) ;;
         ret (dict_set "twig_ids" ids details)
       else ret details) ;;
    match ty with
    | JStr kind => kb_add kind (Lit details)
    | _ => raise TypeError
    end
  else ret tt.

Definition submit_flock_logs (auth : string * string) (req : request)
  : M response :=
  match req_json req with
  | None => ret (api_error "Invalid JSON object")
  | Some docs =>
    match docs with
    | JArr items =>
      match validate_logs 0 items with
      | Some msg => ret (api_error msg)
      | None =>
        for_each (notify_log auth) items ;;;
        ret (api_success
               [("processed_count", JNum (Z.of_nat (length items)))])
      end
    | _ => ret (api_error "Data is not an array")
    end
  end.

(** The routes as registered: [/submit] and [/submit_flock_logs] sit behind
    [requires_auth]. *)
Definition submit_route : request -> M response := requires_auth submit.
Definition submit_flock_logs_route : request -> M response :=
  requires_auth submit_flock_logs.

(** [info], the handler of [/ping]. *)
Definition info (auth : string * string) (req : request) : M response :=
  ret (api_success []).

Definition ping_route : request -> M response := requires_auth info.

End Handlers.

(** *** What [api_error] writes to the debug log *)

(** The parts of the Flask request that [api_error] reads. *)
Record http_request : Type := mk_http_request {
  method : string;
  path : string;
  headers : list (string * string);
  data : string;                                (* [request.get_data()] *)
  http_authorization : option (string * string)
}.

(** The [error_details] dict; [username] is [None] where the key is not
    set. *)
Record error_details : Type := mk_error_details {
  ed_method : string;
  ed_path : string;
  ed_headers : list (string * string);
  ed_body : string;
  ed_error_msg : string;
  ed_username : option string
}.

(** [s.lower()] on ASCII letters. *)
Definition lower_char (c : ascii) : ascii :=
  let n := nat_of_ascii c in
  if (Nat.leb 65 n && Nat.leb n 90)%bool then ascii_of_nat (n + 32) else c.

Fixpoint lower (s : string) : string :=
  match s with
  | EmptyString => EmptyString
  | String c s' => String (lower_char c) (lower s')
  end.

(** The body as logged: cut after 1024 bytes, with a marker. *)
Definition snip (request_body : string) : string :=
  if Nat.ltb 1024 (String.length request_body)
  then (substring 0 1024 request_body ++ " [...snip...]")%string
  else request_body.

Definition log_details (r : http_request) (error_msg : string)
  : error_details :=
  mk_error_details (method r) (path r)
    (List.filter
       (fun header => negb (String.eqb (lower (fst header)) "authorization"))
       (headers r))
    (snip (data r))
    error_msg
    (match http_authorization r with
     | Some (uname, _) => Some uname
     | None => None
     end).

End Api.

(** ** [gateway/app.py] *)

Module Gateway.

(** The [Tokens] object: the token of every registered username (kept in
    step with its JSON file by [save]), and the draws made so far. *)
Record Tokens : Type := mk_Tokens {
  tokens : gmap string string;
  gw_draws : nat
}.

Section Handlers.

Variable token_hex : nat -> string.

Definition exists_ (self : Tokens) (uname : string) : bool :=
  bool_decide (is_Some (tokens self !! uname)).

(** [None] is Python's [None]. *)
Definition get (self : Tokens) (uname : string) : option string :=
  if exists_ self uname then tokens self !! uname else None.

Definition generate (self : Tokens) (uname : string) : Tokens * string :=
  let tok := token_hex (gw_draws self) in
  (mk_Tokens (<[uname := tok]> (tokens self)) (S (gw_draws self)), tok).

Definition check_auth (self : Tokens) (uname password : string) : bool :=
  (exists_ self uname
   && bool_decide (Some password = get self uname))%bool.

Definition api_error (error_msg : string) : response :=
  ([("error", JBool true); ("error_msg", JStr error_msg)], 400%Z).

Definition api_success (success_obj : dict) : response :=
  (dict_set "error" (JBool false) success_obj, 200%Z).

(** [register], on [request.form.get('username')]. *)
Definition register (self : Tokens) (uname : option string)
  : Tokens * response :=
  match uname with
  | None => (self, api_error "You must provide a username")
  | Some uname =>
      if String.eqb uname "" then (self, api_error "You must provide a username")
      else if exists_ self uname
           then (self, api_error "That username is already registered")
           else
             let '(self', tok) := generate self uname in
             (self', api_success [("auth_token", JStr tok)])
  end.


(** [authenticate]: status 401 with an empty body. *)
Definition authenticate : response := ([], 401%Z).

(** [requires_auth], on the registry and [request.authorization]. *)
Definition requires_auth (f : Tokens -> Tokens * response) (self : Tokens)
  (auth : option (string * string)) : Tokens * response :=
  match auth with
  | None => (self, authenticate)
  | Some (uname, password) =>
      if check_auth self uname password then f self
      else (self, authenticate)
  end.

(** [submit], behind [requires_auth]. *)
Definition submit (self : Tokens) : Tokens * response :=
  (self, api_error "Not implemented yet").

Definition submit_route : Tokens -> option (string * string)
                          -> Tokens * response :=
  requires_auth submit.

End Handlers.

End Gateway.

(** ** Vocabulary of the properties *)

(** A batch element that [/submit] must refuse for the caller [uname]: not
    an object, or an object whose [hostIdentifier] is missing or is not the
    caller's username. *)
Definition bad_item (uname : string) (doc : json) : Prop :=
  match doc with
  | JObj d => dict_get "hostIdentifier" d <> Some (JStr uname)
  | _ => True
  end.

Definition is_object (doc : json) : Prop :=
  match doc with JObj _ => True | _ => False end.

(** The field [k] of a record is the string [s]. *)
Definition field_is (k s : string) (doc : dict) : bool :=
  match dict_get k doc with
  | Some (JStr t) => String.eqb t s
  | _ => false
  end.

(** The records of a batch (addresses into the heap [h]) whose [name] is
    the kind [K], in batch order. *)
Definition records_of_kind (h : list dict) (K : string) (docs : list addr)
  : list addr :=
  List.filter (fun a => field_is "name" K (obj h a)) docs.

(** How many of the given records have [action] equal to [s]. *)
Definition count_action (h : list dict) (s : string) (rs : list addr) : nat :=
  length (List.filter (fun a => field_is "action" s (obj h a)) rs).

(** How many have an [action] that is neither "added" nor "removed", or
    none at all. *)
Definition count_other (h : list dict) (rs : list addr) : nat :=
  length (List.filter
            (fun a => (negb (field_is "action" "added" (obj h a))
                       && negb (field_is "action" "removed" (obj h a)))%bool)
            rs).

(** The events of a log that are of kind [K]. *)
Definition events_of_kind (K : string) (log : list (string * payload))
  : list (string * payload) :=
  List.filter (fun ev => String.eqb (fst ev) K) log.

(** The group of a key in [notification_docs]. *)
Fixpoint group_of (K : string) (nd : list (string * list addr))
  : option (list addr) :=
  match nd with
  | [] => None
  | (k, v) :: nd' => if String.eqb K k then Some v else group_of K nd'
  end.

(** What the send loop adds to the notification log for one group. *)
Definition events_of_group (h : list dict) (uname : string) (user : User)
  (kv : string * list addr) : list (string * payload) :=
  match snd kv with
  | [] => []
  | [a] => [(fst kv, Ref a)]
  | _ :: _ :: _ =>
      [(fst kv,
        Lit [("type", JStr "summary");
             ("username", JStr uname);
             ("name", JStr (name user));
             ("added_count", JNum (Z.of_nat (count_action h "added" (snd kv))));
             ("removed_count",
              JNum (Z.of_nat (count_action h "removed" (snd kv))));
             ("other_count", JNum (Z.of_nat (count_other h (snd kv))))])]
  end.

(** [K] is a notification kind of the osquery category. *)
Definition osquery_kind (notifications : list (string * Api.notification_settings))
  (K : string) : Prop :=
  exists cfg, In (K, cfg) notifications /\ Api.ntype cfg = "osquery".

(** The name [register] stores and reports for a body: the [name] field
    without the characters it strips, the empty string when there is no
    such field. *)
Definition registered_name (d : dict) : string :=
  Api.clean_name (match dict_get "name" d with Some (JStr nm) => nm | _ => "" end).

(** A gateway registry with one registered username. *)
Definition gw_bob : Gateway.Tokens :=
  Gateway.mk_Tokens {["bob" := "0123456789abcdef0123456789abcde0"]} 1.

(** The body of a registration of "bob". *)
Definition bob_body : dict := [("username", JStr "bob"); ("name", JStr "Bob")].

(** The timestamp the conversion derives from a [unixTime] value, where
    [int] and [utcfromtimestamp] accept it. *)
Definition timestamp_of (v : json) : option string :=
  match py_int v with
  | Ok t => match utcfromtimestamp t with
            | Ok dt => Some (strftime_iso dt)
            | Raise _ => None
            end
  | Raise _ => None
  end.

(** A record whose [unixTime], if it has one, can be converted. *)
Definition convertible (doc : dict) : bool :=
  match dict_get "unixTime" doc with
  | None => true
  | Some v => match timestamp_of v with Some _ => true | None => false end
  end.

(** A convertible record after the conversion step. *)
Definition with_timestamp (doc : dict) : dict :=
  match dict_get "unixTime" doc with
  | None => doc
  | Some v => match timestamp_of v with
              | Some ts => dict_set "@timestamp" (JStr ts) doc
              | None => doc
              end
  end.

(** A convertible record as the write loop leaves it. *)
Definition stamped (uname : string) (user : User) (doc : dict) : dict :=
  dict_set "user_name" (JStr (name user))
    (dict_set "username" (JStr uname) (with_timestamp doc)).



(** The world after one round of the write loop on a convertible record. *)
Definition indexed (clock : nat -> datetime) (uname : string) (user : User)
  (a : addr) (w : world) : world :=
  mk_world (user_index w)
    (es_log w ++ [mk_es_doc ("flock-" ++ strftime_date (clock (ticks w)))%string
                    "osquery" (stamped uname user (obj (heap w) a))])
    (kb_log w)
    (<[a := stamped uname user (obj (heap w) a)]> (heap w))
    (S (ticks w)) (draws w).

(** The [user] document [submit] loads for the caller. *)
Definition submitter (uname : string) (w : world) : option User :=
  head (List.filter (Api.by_username uname) (user_index w)).

(** The documents the write loop indexes for a batch of convertible
    records, the clock having been read [n] times before. *)
Definition indexed_docs (clock : nat -> datetime) (uname : string)
  (user : User) (n : nat) (ds : list dict) : list es_doc :=
  imap (fun i d =>
          mk_es_doc ("flock-" ++ strftime_date (clock (n + i)))%string
            "osquery" (stamped uname user d)) ds.

(** A world and its surroundings for the examples: one registered
    principal, a catalog with two osquery kinds and one system kind. *)
Definition alice : User := mk_User "alice" "Alice" "s3cret".
Definition w0 : world := mk_world [alice] [] [] [] 0 0.
Definition catalog0 : list (string * Api.notification_settings) :=
  [("usb_devices", Api.mk_settings "osquery" true);
   ("user_registered", Api.mk_settings "system" true);
   ("launchd", Api.mk_settings "osquery" false)].
Definition clock0 (n : nat) : datetime := mk_datetime 2020 4 27 15 6 40.
Definition token_hex0 (n : nat) : string :=
  ("0123456789abcdef0123456789abcde" ++ str_of_nat (n mod 10))%string.
Definition as_alice (body : json) : request :=
  mk_request (Some ("alice", "s3cret")) (Some body).

(** Three records of kind usb_devices, with actions added, removed and
    other, and one launchd record. *)
Definition heap_burst : list dict :=
  [[("name", JStr "usb_devices"); ("action", JStr "added")];
   [("name", JStr "usb_devices"); ("action", JStr "removed")];
   [("name", JStr "launchd")];
   [("name", JStr "usb_devices"); ("action", JStr "other")]].
Definition w_burst : world := mk_world [alice] [] [] heap_burst 0 0.

(** A batch of two records for alice: a usb_devices record with a unixTime,
    and a bare one. *)
Definition batch0 : list json :=
  [JObj [("hostIdentifier", JStr "alice"); ("name", JStr "usb_devices");
         ("unixTime", JStr "1588000000")];
   JObj [("hostIdentifier", JStr "alice")]].


(** A world whose heap holds one record with a numeric unixTime, and one
    whose record has a unixTime that is not a number. *)
Definition w_ts : world :=
  mk_world [alice] [] []
    [[("hostIdentifier", JStr "alice"); ("unixTime", JStr "1588000000")]] 0 0.

(** ** Vocabulary of the further properties *)

(** A character of the class [A-Za-z0-9_-]. *)
Definition username_char (c : ascii) : bool :=
  let n := nat_of_ascii c in
  ((Nat.leb 65 n && Nat.leb n 90) || (Nat.leb 97 n && Nat.leb n 122)
   || (Nat.leb 48 n && Nat.leb n 57) || Nat.eqb n 95 || Nat.eqb n 45)%bool.

(** A registration body for "carol" whose name holds characters that
    [register] strips. *)
Definition carol_body : dict :=
  [("username", JStr "carol-01"); ("name", JStr "Carol {*_*} C.")].

(** A batch element that [/submit_flock_logs] must refuse: not an object,
    without [type], without [timestamp], or of type enable_twig or
    disable_twig without [twig_id]. *)
Definition bad_log_item (doc : json) : Prop :=
  match doc with
  | JObj d =>
      dict_get "type" d = None \/ dict_get "timestamp" d = None \/
      ((dict_get "type" d = Some (JStr "enable_twig")
        \/ dict_get "type" d = Some (JStr "disable_twig"))
       /\ dict_get "twig_id" d = None)
  | _ => True
  end.

(** The error messages of [/submit_flock_logs] for the item at index [i]. *)
Definition log_item_messages (i : nat) : list string :=
  [("Item " ++ str_of_nat i ++ " is not an object")%string;
   ("Item " ++ str_of_nat i ++ " does not contain a type field")%string;
   ("Item " ++ str_of_nat i ++ " does not contain a timestamp field")%string;
   ("Item " ++ str_of_nat i
      ++ " is about a twig, but does not contain a twig_id field")%string].

(** The record is of one of the two kinds whose notification lists twig
    identifiers. *)
Definition twigs_kind (doc : json) : bool :=
  match dict_get "type" (Api.as_dict doc) with
  | Some ty => str_in ty ["twigs_enabled"; "twigs_disabled"]
  | None => false
  end.

(** The record can be notified: of a twigs kind only with [twig_ids]. *)
Definition notifiable (doc : json) : bool :=
  (negb (twigs_kind doc) || dict_has "twig_ids" (Api.as_dict doc))%bool.

(** The notification events of a log record, for the caller [uname] with
    display name [nm]: one for a state-change record, none for others. *)
Definition log_events (uname : string) (nm : json) (doc : json)
  : list (string * payload) :=
  match dict_get "type" (Api.as_dict doc) with
  | Some (JStr ty) =>
      if str_in (JStr ty) ["server_enabled"; "server_disabled"]
      then [(ty, Lit [("username", JStr uname); ("name", nm)])]
      else if str_in (JStr ty) ["twigs_enabled"; "twigs_disabled"]
           then match dict_get "twig_ids" (Api.as_dict doc) with
                | Some ids => [(ty, Lit [("username", JStr uname); ("name", nm);
                                         ("twig_ids", ids)])]
                | None => []
                end
           else []
  | _ => []
  end.

(** What [get_name] returns for the caller. *)
Definition name_of_caller (auth : string * string) (w : world) : json :=
  match snd (Api.get_name auth w) with
  | Ok nm => nm
  | Raise _ => JNull
  end.



(** Only the notification log differs, and only by events added. *)
Definition only_notified (w w' : world) : Prop :=
  user_index w' = user_index w /\ es_log w' = es_log w /\
  heap w' = heap w /\ ticks w' = ticks w /\ draws w' = draws w /\
  exists evs, kb_log w' = kb_log w ++ evs.

(** A batch of log records: a twig switched on, the server disabled, two
    twigs enabled. *)
Definition log_batch0 : list json :=
  [JObj [("type", JStr "enable_twig"); ("timestamp", JNum 1588000000);
         ("twig_id", JStr "usb_devices")];
   JObj [("type", JStr "server_disabled"); ("timestamp", JNum 1588000001)];
   JObj [("type", JStr "twigs_enabled"); ("timestamp", JNum 1588000002);
         ("twig_ids", JArr [JStr "usb_devices"; JStr "launchd"])]].

(** A request that carries its credentials in a header, and a long body. *)
Definition long_request : Api.http_request :=
  Api.mk_http_request "POST" "/submit"
    [("Content-Type", "application/json");
     ("AUTHORIZATION", "Basic YWxpY2U6czNjcmV0");
     ("Authorization", "Basic YWxpY2U6czNjcmV0")]
    (string_of_list_ascii (repeat "x"%char 2000))
    (Some ("alice", "s3cret")).

(** A body whose username holds a blank, and requests used below. *)
Definition blank_body : dict := [("username", JStr "bad name")].
Definition carol_request : request := mk_request None (Some (JObj carol_body)).
Definition batch0_request : request := as_alice (JArr batch0).

(** A batch of log records whose second record is of a twigs kind without
    twig_ids. *)
Definition log_server_off : json :=
  JObj [("type", JStr "server_disabled"); ("timestamp", JNum 1588000001)].
Definition log_twigs_bare : json :=
  JObj [("type", JStr "twigs_enabled"); ("timestamp", JNum 1588000002)].

(** A log record of type enable_twig without twig_id. *)
Definition log_twig_bare : json :=
  JObj [("type", JStr "enable_twig"); ("timestamp", JNum 1588000000)].

(** * Properties *)

(** ** Basic facts *)

Lemma str_eq_true (s : string) (v : json) : str_eq s v = true <-> v = JStr s.
Proof.
  destruct v; simpl; try (split; [discriminate | intros H; discriminate H]).
  rewrite String.eqb_eq. split; [intros -> | intros [= ->]]; reflexivity.
Qed.

Lemma check_auth_run (uname tok : string) (w : world) :
  Api.check_auth uname tok w
  = (w, Ok (Nat.eqb (length (List.filter (Api.by_username_token uname tok)
                               (user_index w))) 1)).
Proof. reflexivity. Qed.

Lemma check_item_spec (uname : string) (i : nat) (doc : json) :
  match Api.check_item uname i doc with
  | None => ~ bad_item uname doc
  | Some msg =>
      bad_item uname doc /\
      ((msg = ("Item " ++ str_of_nat i ++ " is not an object")%string
        /\ ~ is_object doc) \/
       (msg = ("Item " ++ str_of_nat i
                 ++ " does not contain the correct hostIdentifier")%string
        /\ is_object doc))
  end.
Proof.
  destruct doc as [| b | n | f | s | items | d]; simpl;
    try (split; [exact I | left; split; [reflexivity | tauto]]).
  destruct (dict_get "hostIdentifier" d) as [v |] eqn:E.
  - destruct (str_eq uname v) eqn:Ev.
    + apply str_eq_true in Ev. subst v. intros H. apply H. reflexivity.
    + split.
      * intros [= ->]. simpl in Ev. rewrite String.eqb_refl in Ev. discriminate.
      * right. split; [reflexivity | exact I].
  - split; [discriminate | right; split; [reflexivity | exact I]].
Qed.

(** [validate] reports the first refused item, with its index. *)
Lemma validate_spec (uname : string) (items : list json) : forall k : nat,
  match Api.validate uname k items with
  | None => Forall (fun doc => ~ bad_item uname doc) items
  | Some msg =>
      exists (i : nat) (doc : json),
        items !! i = Some doc /\ bad_item uname doc /\
        (forall (j : nat) (doc' : json),
            j < i -> items !! j = Some doc' -> ~ bad_item uname doc') /\
        ((msg = ("Item " ++ str_of_nat (k + i) ++ " is not an object")%string
          /\ ~ is_object doc) \/
         (msg = ("Item " ++ str_of_nat (k + i)
                   ++ " does not contain the correct hostIdentifier")%string
          /\ is_object doc))
  end.
Proof.
  induction items as [| doc rest IH]; intros k; simpl.
  - constructor.
  - pose proof (check_item_spec uname k doc) as Hc.
    destruct (Api.check_item uname k doc) as [msg |].
    + destruct Hc as [Hbad Hmsg]. exists 0, doc.
      rewrite Nat.add_0_r. split; [reflexivity |]. split; [exact Hbad |].
      split; [intros j doc' Hj; lia | exact Hmsg].
    + specialize (IH (S k)).
      destruct (Api.validate uname (S k) rest) as [msg |].
      * destruct IH as (i & d & Hi & Hbad & Hfirst & Hmsg).
        exists (S i), d. split; [exact Hi |]. split; [exact Hbad |].
        split.
        -- intros [| j] doc' Hj Hl; simpl in Hl.
           ++ injection Hl as <-. exact Hc.
           ++ apply (Hfirst j); [lia | exact Hl].
        -- replace (k + S i) with (S k + i) by lia. exact Hmsg.
      * constructor; assumption.
Qed.

Section Properties.

Variable notifications : list (string * Api.notification_settings).
Variable clock : nat -> datetime.
Variable token_hex : nat -> string.

(** *** The grouping loop *)

Lemma field_is_action (s : string) (doc : dict) :
  Api.action_is s doc = field_is "action" s doc.
Proof.
  unfold Api.action_is, field_is.
  destruct (dict_get "action" doc) as [[| | | | t | |] |]; simpl; try reflexivity.
  apply String.eqb_sym.
Qed.

Lemma added_not_removed (doc : dict) :
  field_is "action" "added" doc = true ->
  field_is "action" "removed" doc = false.
Proof.
  unfold field_is.
  destruct (dict_get "action" doc) as [[| | | | t | |] |]; try discriminate.
  intros H. apply String.eqb_eq in H. subst t. reflexivity.
Qed.

Ltac pair_lia :=
  repeat match goal with |- (_, _) = (_, _) => apply f_equal2 end; lia.

Lemma count_loop (h : list dict) (value : list addr) :
  forall added removed other : nat,
    fold_left (Api.count_doc h) value (added, removed, other)
    = (added + count_action h "added" value,
       removed + count_action h "removed" value,
       other + count_other h value).
Proof.
  unfold count_action, count_other.
  induction value as [| a value IH]; intros added removed other; simpl.
  - pair_lia.
  - rewrite !field_is_action.
    destruct (field_is "action" "added" (obj h a)) eqn:Ea.
    + rewrite (added_not_removed _ Ea). simpl. rewrite IH. pair_lia.
    + destruct (field_is "action" "removed" (obj h a)) eqn:Er; simpl;
        rewrite IH; pair_lia.
Qed.

Lemma group_of_append (K k : string) (a : addr) (nd : list (string * list addr)) :
  group_of K (Api.nd_append k a nd)
  = if String.eqb K k then Some (default [] (group_of K nd) ++ [a])
    else group_of K nd.
Proof.
  induction nd as [| [k' v] nd IH]; simpl.
  - destruct (String.eqb K k); reflexivity.
  - destruct (String.eqb k k') eqn:Ekk'; simpl.
    + apply String.eqb_eq in Ekk'. subst k'.
      destruct (String.eqb K k); reflexivity.
    + destruct (String.eqb K k') eqn:EK; [| exact IH].
      apply String.eqb_eq in EK. subst k'.
      rewrite String.eqb_sym, Ekk'. reflexivity.
Qed.

Lemma keys_append (k : string) (a : addr) (nd : list (string * list addr)) :
  List.map fst (Api.nd_append k a nd)
  = match group_of k nd with
    | Some _ => List.map fst nd
    | None => List.map fst nd ++ [k]
    end.
Proof.
  induction nd as [| [k' v] nd IH]; simpl; [reflexivity |].
  destruct (String.eqb k k'); simpl; [reflexivity |].
  rewrite IH. destruct (group_of k nd); reflexivity.
Qed.

Lemma group_of_None (K : string) (nd : list (string * list addr)) :
  group_of K nd = None <-> ~ In K (List.map fst nd).
Proof.
  induction nd as [| [k v] nd IH]; simpl; [tauto |].
  destruct (String.eqb_spec K k) as [-> | Hne].
  - split; [discriminate | intros H; exfalso; apply H; left; reflexivity].
  - rewrite IH. split; [intros H [E | Hin]; [congruence | tauto] | tauto].
Qed.

Lemma keys_append_NoDup (k : string) (a : addr) (nd : list (string * list addr)) :
  NoDup (List.map fst nd) ->
  NoDup (List.map fst (Api.nd_append k a nd)).
Proof.
  intros Hnd. rewrite keys_append.
  destruct (group_of k nd) eqn:E; [exact Hnd |].
  apply group_of_None in E.
  apply NoDup_app. split; [exact Hnd |]. split.
  - intros x Hx Hk. apply list_elem_of_In in Hx.
    apply list_elem_of_In in Hk. destruct Hk as [<- | []]. exact (E Hx).
  - apply NoDup_singleton.
Qed.

Lemma collect_NoDup (h : list dict) (nd : list (string * list addr)) (a : addr) :
  NoDup (List.map fst nd) ->
  NoDup (List.map fst (Api.collect notifications h nd a)).
Proof.
  intros Hnd. unfold Api.collect.
  destruct (dict_get "name" (obj h a)) as [[| | | | k | |] |]; try exact Hnd.
  destruct (str_in _ _); [apply keys_append_NoDup |]; exact Hnd.
Qed.

Lemma group_docs_NoDup (h : list dict) (docs : list addr) :
  forall nd, NoDup (List.map fst nd) ->
    NoDup (List.map fst (fold_left (Api.collect notifications h) docs nd)).
Proof.
  induction docs as [| a docs IH]; intros nd Hnd; simpl; [exact Hnd |].
  apply IH, collect_NoDup, Hnd.
Qed.

Lemma str_in_names (K : string) :
  In K (Api.notification_names notifications) ->
  str_in (JStr K) (Api.notification_names notifications) = true.
Proof.
  intros HK. unfold str_in. apply List.existsb_exists.
  exists K. split; [exact HK | apply String.eqb_refl].
Qed.

Lemma group_of_collect (h : list dict) (K : string)
  (nd : list (string * list addr)) (a : addr) :
  In K (Api.notification_names notifications) ->
  group_of K (Api.collect notifications h nd a)
  = if field_is "name" K (obj h a)
    then Some (default [] (group_of K nd) ++ [a])
    else group_of K nd.
Proof.
  intros HK. unfold Api.collect, field_is.
  destruct (dict_get "name" (obj h a)) as [[| | | | k | |] |]; try reflexivity.
  destruct (String.eqb_spec k K) as [-> | Hne].
  - rewrite (str_in_names K HK), group_of_append, String.eqb_refl. reflexivity.
  - destruct (str_in _ _); [| reflexivity].
    rewrite group_of_append.
    destruct (String.eqb_spec K k) as [-> | _]; [congruence | reflexivity].
Qed.

(** After the grouping loop, the group of a notification name holds the
    records of that kind, in batch order, behind what it held before. *)
Lemma group_of_fold (h : list dict) (K : string) (docs : list addr) :
  In K (Api.notification_names notifications) ->
  forall nd,
    group_of K (fold_left (Api.collect notifications h) docs nd)
    = match records_of_kind h K docs with
      | [] => group_of K nd
      | r => Some (default [] (group_of K nd) ++ r)
      end.
Proof.
  intros HK. unfold records_of_kind.
  induction docs as [| a docs IH]; intros nd; simpl; [reflexivity |].
  rewrite IH, (group_of_collect h K nd a HK).
  destruct (field_is "name" K (obj h a)); simpl.
  - destruct (List.filter _ docs); simpl; [reflexivity |].
    rewrite <- List.app_assoc. reflexivity.
  - reflexivity.
Qed.

Lemma group_of_group_docs (h : list dict) (K : string) (docs : list addr) :
  In K (Api.notification_names notifications) ->
  group_of K (Api.group_docs notifications h docs)
  = match records_of_kind h K docs with
    | [] => None
    | r => Some r
    end.
Proof.
  intros HK. unfold Api.group_docs. rewrite (group_of_fold h K docs HK).
  reflexivity.
Qed.

(** *** The send loop *)

Lemma notify_run (uname : string) (user : User) (kv : string * list addr)
  (w : world) :
  Api.notify uname user kv w
  = (set_kb_log (fun l => l ++ events_of_group (heap w) uname user kv) w, Ok tt).
Proof.
  destruct kv as [key [| a [| b value]]]; unfold Api.notify, events_of_group.
  - simpl. unfold ret, set_kb_log. destruct w; simpl.
    rewrite List.app_nil_r. reflexivity.
  - reflexivity.
  - cbn [length Nat.eqb Nat.ltb Nat.leb snd fst].
    unfold bind, gets, Api.kb_add, modify, Api.summary.
    rewrite (count_loop (heap w) (a :: b :: value) 0 0 0). reflexivity.
Qed.

Lemma send_loop_run (uname : string) (user : User)
  (nd : list (string * list addr)) :
  forall w : world,
    for_each (Api.notify uname user) nd w
    = (set_kb_log
         (fun l => l ++ List.flat_map (events_of_group (heap w) uname user) nd)
         w, Ok tt).
Proof.
  induction nd as [| kv nd IH]; intros w; simpl.
  - unfold ret, set_kb_log. destruct w; simpl.
    rewrite List.app_nil_r. reflexivity.
  - unfold bind at 1. rewrite notify_run, IH.
    destruct w; unfold set_kb_log; simpl.
    rewrite <- List.app_assoc. reflexivity.
Qed.

Lemma classify_run (uname : string) (user : User) (docs : list addr)
  (w : world) :
  Api.classify notifications uname user docs w
  = (set_kb_log
       (fun l => l ++ List.flat_map (events_of_group (heap w) uname user)
                        (Api.group_docs notifications (heap w) docs))
       w, Ok tt).
Proof. unfold Api.classify, bind, gets. apply send_loop_run. Qed.

Lemma events_of_group_kind (h : list dict) (uname : string) (user : User)
  (K : string) (kv : string * list addr) :
  events_of_kind K (events_of_group h uname user kv)
  = if String.eqb (fst kv) K then events_of_group h uname user kv else [].
Proof.
  unfold events_of_group.
  destruct kv as [k [| a [| b v]]]; simpl;
    destruct (String.eqb k K); reflexivity.
Qed.

(** With one entry per key, the events of kind [K] are those of the group
    of [K]. *)
Lemma events_of_kind_groups (h : list dict) (uname : string) (user : User)
  (K : string) (nd : list (string * list addr)) :
  NoDup (List.map fst nd) ->
  events_of_kind K (List.flat_map (events_of_group h uname user) nd)
  = match group_of K nd with
    | Some v => events_of_group h uname user (K, v)
    | None => []
    end.
Proof.
  unfold events_of_kind at 1.
  induction nd as [| [k v] nd IH]; intros Hnd; [reflexivity |].
  change (List.map fst ((k, v) :: nd)) with (k :: List.map fst nd) in Hnd.
  apply NoDup_cons in Hnd. destruct Hnd as [Hk Hnd'].
  rewrite list_elem_of_In in Hk. simpl.
  rewrite List.filter_app.
  change (List.filter (fun ev => String.eqb (fst ev) K)
            (events_of_group h uname user (k, v)))
    with (events_of_kind K (events_of_group h uname user (k, v))).
  rewrite events_of_group_kind, (IH Hnd'). simpl.
  rewrite (String.eqb_sym K k).
  destruct (String.eqb_spec k K) as [-> | Hne]; [| reflexivity].
  apply group_of_None in Hk. rewrite Hk. apply List.app_nil_r.
Qed.

(** The events of kind [K] that classification adds, for a notification
    name [K]: those of the group made of the records of kind [K]. *)
Lemma classify_events (h : list dict) (uname : string) (user : User)
  (docs : list addr) (K : string) :
  In K (Api.notification_names notifications) ->
  events_of_kind K
    (List.flat_map (events_of_group h uname user)
       (Api.group_docs notifications h docs))
  = events_of_group h uname user (K, records_of_kind h K docs).
Proof.
  intros HK. rewrite events_of_kind_groups.
  - rewrite (group_of_group_docs h K docs HK).
    destruct (records_of_kind h K docs); reflexivity.
  - apply group_docs_NoDup. apply NoDup_nil_2.
Qed.

(** *** Dicts and the heap *)

Lemma dict_get_set (k : string) (v : json) (d : dict) :
  dict_get k (dict_set k v d) = Some v.
Proof.
  induction d as [| [k' v'] d IH]; simpl.
  - rewrite String.eqb_refl. reflexivity.
  - destruct (String.eqb k k') eqn:E; simpl; rewrite ?String.eqb_refl, ?E;
      [reflexivity | exact IH].
Qed.

Lemma dict_get_set_ne (k k' : string) (v : json) (d : dict) :
  k <> k' -> dict_get k (dict_set k' v d) = dict_get k d.
Proof.
  intros Hne. induction d as [| [k0 v0] d IH]; simpl.
  - destruct (String.eqb_spec k k'); [contradiction | reflexivity].
  - destruct (String.eqb_spec k' k0) as [-> | Hk0]; simpl.
    + destruct (String.eqb_spec k k0); [contradiction | reflexivity].
    + destruct (String.eqb k k0); [reflexivity | exact IH].
Qed.

Lemma obj_insert (h : list dict) (a : addr) (d : dict) :
  a < length h -> obj (<[a := d]> h) a = d.
Proof.
  intros Ha. unfold obj. rewrite list_lookup_insert_eq by exact Ha. reflexivity.
Qed.

Lemma obj_insert_ne (h : list dict) (a b : addr) (d : dict) :
  a <> b -> obj (<[a := d]> h) b = obj h b.
Proof.
  intros Hne. unfold obj. rewrite list_lookup_insert_ne by exact Hne.
  reflexivity.
Qed.

Lemma obj_middle (pre post : list dict) (d : dict) :
  obj (pre ++ d :: post) (length pre) = d.
Proof. unfold obj. rewrite list_lookup_middle by reflexivity. reflexivity. Qed.

(** *** The conversion step *)

Lemma convert_unixtime_run (a : addr) (w : world) :
  Api.convert_unixtime a w
  = match dict_get "unixTime" (obj (heap w) a) with
    | None => (w, Ok tt)
    | Some v =>
        match py_int v with
        | Raise e => (w, Raise e)
        | Ok t =>
            match utcfromtimestamp t with
            | Raise e => (w, Raise e)
            | Ok dt =>
                (set_heap
                   (fun h => <[a := dict_set "@timestamp" (JStr (strftime_iso dt))
                                      (obj h a)]> h) w, Ok tt)
            end
        end
    end.
Proof.
  unfold Api.convert_unixtime, bind, gets, dict_has, dict_item, lift.
  destruct (dict_get "unixTime" (obj (heap w) a)) as [v |]; [| reflexivity].
  destruct (py_int v) as [t | e]; [| reflexivity].
  destruct (utcfromtimestamp t) as [dt | e]; reflexivity.
Qed.









(** *** The write loop *)

Lemma world_heap_id (w : world) (a : addr) :
  a < length (heap w) ->
  set_heap (fun h => <[a := obj h a]> h) w = w.
Proof.
  intros Ha. destruct w as [ui el kl h tk dr]; unfold set_heap; simpl in *.
  f_equal. apply list_insert_id. unfold obj.
  destruct (lookup_lt_is_Some_2 h a Ha) as [d Hd]. rewrite Hd. reflexivity.
Qed.

Lemma convert_convertible (a : addr) (w : world) :
  a < length (heap w) ->
  convertible (obj (heap w) a) = true ->
  Api.convert_unixtime a w
  = (set_heap (fun h => <[a := with_timestamp (obj h a)]> h) w, Ok tt).
Proof.
  intros Ha Hc. rewrite convert_unixtime_run.
  unfold convertible, timestamp_of in Hc.
  assert (Hid : set_heap (fun h => <[a := with_timestamp (obj h a)]> h) w
                = mk_world (user_index w) (es_log w) (kb_log w)
                    (<[a := with_timestamp (obj (heap w) a)]> (heap w))
                    (ticks w) (draws w)) by reflexivity.
  rewrite Hid. unfold with_timestamp, timestamp_of.
  destruct (dict_get "unixTime" (obj (heap w) a)) as [v |].
  - destruct (py_int v) as [t | e]; [| discriminate].
    destruct (utcfromtimestamp t) as [dt | e]; [reflexivity | discriminate].
  - rewrite <- (world_heap_id w a Ha) at 1. reflexivity.
Qed.

Lemma convert_not_convertible (a : addr) (w : world) :
  convertible (obj (heap w) a) = false ->
  exists e, Api.convert_unixtime a w = (w, Raise e).
Proof.
  intros Hc. rewrite convert_unixtime_run.
  unfold convertible, timestamp_of in Hc.
  destruct (dict_get "unixTime" (obj (heap w) a)) as [v |]; [| discriminate].
  destruct (py_int v) as [t | e]; [| eexists; reflexivity].
  destruct (utcfromtimestamp t) as [dt | e];
    [discriminate | eexists; reflexivity].
Qed.

Lemma index_doc_ok (uname : string) (user : User) (a : addr) (w : world) :
  a < length (heap w) ->
  convertible (obj (heap w) a) = true ->
  Api.index_doc clock uname user a w = (indexed clock uname user a w, Ok tt).
Proof.
  intros Ha Hc. unfold Api.index_doc. unfold bind at 1.
  rewrite (convert_convertible a w Ha Hc).
  unfold bind, obj_set, modify, Api.datetime_now, Api.es_index, indexed,
    stamped, set_heap, set_ticks, set_es_log.
  cbn [heap user_index es_log kb_log ticks draws].
  rewrite !list_insert_insert_eq.
  rewrite !obj_insert by (rewrite ?length_insert; exact Ha).
  unfold modify. cbn [heap user_index es_log kb_log ticks draws].
  rewrite obj_insert by exact Ha. reflexivity.
Qed.

Lemma index_doc_raise (uname : string) (user : User) (a : addr) (w : world) :
  convertible (obj (heap w) a) = false ->
  exists e, Api.index_doc clock uname user a w = (w, Raise e).
Proof.
  intros Hc. destruct (convert_not_convertible a w Hc) as [e He].
  exists e. unfold Api.index_doc. unfold bind at 1. rewrite He. reflexivity.
Qed.

Lemma for_each_step {A : Type} (body : A -> M unit) (x : A) (xs : list A)
  (w : world) :
  for_each body (x :: xs) w
  = match body x w with
    | (w', Ok _) => for_each body xs w'
    | (w', Raise e) => (w', Raise e)
    end.
Proof. reflexivity. Qed.

(** The write loop over the records of a batch, allocated behind [pre]:
    it writes one document per convertible record and stops, raising, at
    the first record that is not; it never touches the principals or the
    notification log. *)
Lemma write_loop_run (uname : string) (user : User) (ds : list dict) :
  forall (pre : list dict) (w : world),
    heap w = pre ++ ds ->
    (Forall (fun d => convertible d = true) ds ->
     for_each (Api.index_doc clock uname user) (seq (length pre) (length ds)) w
     = (mk_world (user_index w)
          (es_log w ++ indexed_docs clock uname user (ticks w) ds)
          (kb_log w)
          (pre ++ List.map (stamped uname user) ds)
          (ticks w + length ds) (draws w), Ok tt))
    /\
    (~ Forall (fun d => convertible d = true) ds ->
     exists (w' : world) (e : exn),
       for_each (Api.index_doc clock uname user) (seq (length pre) (length ds)) w
       = (w', Raise e) /\
       kb_log w' = kb_log w /\ user_index w' = user_index w /\
       length (es_log w') < length (es_log w) + length ds).
Proof.
  unfold indexed_docs.
  induction ds as [| d ds IH]; intros pre w Hh.
  - split.
    + intros _. simpl. unfold ret. rewrite List.app_nil_r, Nat.add_0_r.
      destruct w; simpl in *. rewrite List.app_nil_r in *. subst. reflexivity.
    + intros Hn. exfalso. apply Hn. constructor.
  - assert (Ha : length pre < length (heap w)).
    { rewrite Hh, length_app. simpl. lia. }
    assert (Hobj : obj (heap w) (length pre) = d).
    { rewrite Hh. apply obj_middle. }
    cbn [length seq]. rewrite !for_each_step.
    destruct (convertible d) eqn:Hc.
    + assert (Hstep : Api.index_doc clock uname user (length pre) w
                      = (indexed clock uname user (length pre) w, Ok tt)).
      { apply index_doc_ok; [exact Ha | rewrite Hobj; exact Hc]. }
      rewrite Hstep.
      assert (Hh' : heap (indexed clock uname user (length pre) w)
                    = (pre ++ [stamped uname user d]) ++ ds).
      { unfold indexed. cbn [heap]. rewrite Hobj, Hh.
        rewrite insert_app_r_alt by lia. rewrite Nat.sub_diag. simpl.
        rewrite <- List.app_assoc. reflexivity. }
      specialize (IH (pre ++ [stamped uname user d])
                    (indexed clock uname user (length pre) w) Hh').
      rewrite length_app in IH. change (length [stamped uname user d]) with 1 in IH.
      rewrite Nat.add_1_r in IH.
      destruct IH as [IHok IHraise]. split.
      * intros Hall. apply Forall_cons in Hall. destruct Hall as [_ Hall].
        rewrite (IHok Hall). unfold indexed.
        cbn [user_index es_log kb_log ticks draws heap].
        rewrite Hobj, <- !List.app_assoc. rewrite imap_cons.
        f_equal. f_equal; [| cbn [length]; lia].
        f_equal. cbn [List.app]. rewrite Nat.add_0_r. f_equal.
        apply imap_ext. intros i x _. cbn [compose].
        replace (S (ticks w) + i) with (ticks w + S i) by lia. reflexivity.
      * intros Hn.
        destruct IHraise as (w' & e & Hrun & Hkb & Hui & Hlen).
        { intros Hall. apply Hn. constructor; assumption. }
        exists w', e. rewrite Hrun. split; [reflexivity |].
        unfold indexed in Hkb, Hui, Hlen.
        cbn [user_index es_log kb_log] in Hkb, Hui, Hlen.
        rewrite length_app in Hlen. cbn [length] in Hlen. cbn [length].
        split; [exact Hkb |]. split; [exact Hui | lia].
    + split.
      * intros Hall. apply Forall_cons in Hall. destruct Hall as [Hd _].
        congruence.
      * intros _.
        destruct (index_doc_raise uname user (length pre) w) as [e He].
        { rewrite Hobj. exact Hc. }
        exists w, e. rewrite He.
        split; [reflexivity |]. split; [reflexivity |].
        split; [reflexivity | lia].
Qed.

(** *** [submit] on a batch that passes validation *)

Lemma stamped_username (uname : string) (user : User) (doc : dict) :
  dict_get "username" (stamped uname user doc) = Some (JStr uname).
Proof.
  unfold stamped. rewrite dict_get_set_ne by discriminate. apply dict_get_set.
Qed.



Lemma authenticated_submitter (uname tok : string) (w : world) :
  snd (Api.check_auth uname tok w) = Ok true ->
  exists user, submitter uname w = Some user
               /\ In user (user_index w) /\ username user = uname.
Proof.
  rewrite check_auth_run. simpl. intros [= Hlen].
  destruct (List.filter (Api.by_username_token uname tok) (user_index w))
    as [| x l] eqn:Ef; [discriminate |].
  assert (Hx : In x (List.filter (Api.by_username uname) (user_index w))).
  { assert (Hin : In x (List.filter (Api.by_username_token uname tok)
                          (user_index w))) by (rewrite Ef; left; reflexivity).
    apply List.filter_In in Hin. destruct Hin as [Hin Hp].
    apply List.filter_In. split; [exact Hin |].
    unfold Api.by_username_token in Hp. apply andb_prop in Hp. tauto. }
  unfold submitter.
  destruct (List.filter (Api.by_username uname) (user_index w)) as [| y l']
    eqn:Eg; [destruct Hx |].
  exists y. split; [reflexivity |].
  assert (Hy : In y (List.filter (Api.by_username uname) (user_index w)))
    by (rewrite Eg; left; reflexivity).
  apply List.filter_In in Hy. destruct Hy as [Hin Hp].
  split; [exact Hin | apply String.eqb_eq; exact Hp].
Qed.

Lemma validate_accepts (uname : string) (items : list json) :
  Forall (fun doc => ~ bad_item uname doc) items ->
  Api.validate uname 0 items = None.
Proof.
  intros Hall. pose proof (validate_spec uname items 0) as Hv.
  destruct (Api.validate uname 0 items) as [msg |]; [| reflexivity].
  destruct Hv as (i & doc & Hi & Hbad & _).
  rewrite Forall_forall in Hall. exfalso.
  apply (Hall doc); [| exact Hbad].
  apply list_elem_of_lookup. exists i. exact Hi.
Qed.

(** The run of [/submit] on a batch that passes validation: allocation of
    the records, the write loop, classification, the success answer. *)
Lemma submit_accepted (w : world) (uname tok : string) (items : list json)
  (user : User) :
  snd (Api.check_auth uname tok w) = Ok true ->
  submitter uname w = Some user ->
  items <> [] ->
  Forall (fun doc => ~ bad_item uname doc) items ->
  Api.submit_route notifications clock
    (mk_request (Some (uname, tok)) (Some (JArr items))) w
  = match for_each (Api.index_doc clock uname user)
            (seq (length (heap w)) (length items))
            (set_heap (fun h => h ++ List.map Api.as_dict items) w) with
    | (w2, Ok _) =>
        (set_kb_log
           (fun l => l ++ List.flat_map (events_of_group (heap w2) uname user)
                            (Api.group_docs notifications (heap w2)
                               (seq (length (heap w)) (length items))))
           w2,
         Ok ([("processed_count", JNum (Z.of_nat (length items)));
              ("error", JBool false)], 200%Z))
    | (w2, Raise e) => (w2, Raise e)
    end.
Proof.
  intros Hauth Hsub Hne Hvalid.
  rewrite check_auth_run in Hauth. simpl in Hauth. injection Hauth as Hauth.
  unfold Api.submit_route, Api.requires_auth. cbn [authorization].
  unfold bind at 1. rewrite check_auth_run, Hauth.
  unfold Api.submit. cbn [req_json fst].
  destruct items as [| d0 rest]; [contradiction |].
  cbn [truthy negb]. rewrite (validate_accepts uname _ Hvalid).
  unfold bind at 1. unfold Api.search_user at 1, gets at 1.
  unfold submitter in Hsub.
  destruct (List.filter (Api.by_username uname) (user_index w)) as [| x l];
    [discriminate |].
  injection Hsub as ->.
  unfold bind at 1. unfold alloc at 1.
  rewrite length_map.
  unfold bind at 1.
  destruct (for_each (Api.index_doc clock uname user) _ _) as [w2 [[] | e]];
    [| reflexivity].
  unfold bind at 1. rewrite classify_run.
  unfold ret, Api.api_success. rewrite length_seq. reflexivity.
Qed.



(** A body that is not an array is answered at once, the world untouched. *)
Lemma submit_not_array (auth : string * string)
  (cred : option (string * string)) (body : option json) (w : world) :
  (forall items, body <> Some (JArr items)) ->
  exists resp : response,
    Api.submit notifications clock auth (mk_request cred body) w
    = (w, Ok resp).
Proof.
  intros Hna.
  destruct body as [[| b | n | f | s | items | d] |];
    try (exfalso; eapply Hna; reflexivity);
    unfold Api.submit; simpl;
    repeat match goal with
           | |- context [if ?c then _ else _] => destruct c
           end;
    eexists; reflexivity.
Qed.


(** C3: a [/submit] body that is not an array, or that holds an element which
    is not an object or whose hostIdentifier is missing or not the caller's
    username, is answered with a 400 error; for an array the message names
    the index of the first such element; the world (store, notification
    log and all) is left as it was. *)
Theorem C3_invalid_batch_rejected
  (w : world) (uname tok : string) (body : option json) :
  snd (Api.check_auth uname tok w) = Ok true ->
  ((forall items, body <> Some (JArr items)) \/
   (exists items doc, body = Some (JArr items) /\ In doc items
                      /\ bad_item uname doc)) ->
  exists msg : string,
    Api.submit_route notifications clock
      (mk_request (Some (uname, tok)) body) w
    = (w, Ok ([("error", JBool true); ("error_msg", JStr msg)], 400%Z)) /\
    (forall items, body = Some (JArr items) ->
       exists (i : nat) (doc : json),
         items !! i = Some doc /\ bad_item uname doc /\
         (forall (j : nat) (doc' : json),
             j < i -> items !! j = Some doc' -> ~ bad_item uname doc') /\
         ((msg = ("Item " ++ str_of_nat i ++ " is not an object")%string
           /\ ~ is_object doc) \/
          (msg = ("Item " ++ str_of_nat i
                    ++ " does not contain the correct hostIdentifier")%string
           /\ is_object doc))).
Proof.
  intros Hauth Hbody.
  unfold Api.submit_route, Api.requires_auth; simpl.
  unfold bind at 1. rewrite check_auth_run in *. simpl in Hauth.
  injection Hauth as ->.
  destruct Hbody as [Hna | (items & doc & -> & Hin & Hbad)].
  - destruct body as [[| b | n | f | s | items | d] |];
      try (exfalso; eapply Hna; reflexivity);
      unfold Api.submit; simpl;
      repeat match goal with
             | |- context [if ?c then _ else _] => destruct c
             end;
      (eexists; split; [reflexivity | intros ? [=]]).
  - unfold Api.submit; simpl.
    destruct items as [| d0 rest]; [destruct Hin |].
    simpl negb. cbv iota.
    pose proof (validate_spec uname (d0 :: rest) 0) as Hv.
    destruct (Api.validate uname 0 (d0 :: rest)) as [msg |].
    + exists msg. split; [reflexivity |].
      intros items' [= <-]. exact Hv.
    + exfalso. rewrite Forall_forall in Hv.
      apply (Hv doc); [apply list_elem_of_In; exact Hin | exact Hbad].
Qed.

(** C9: with valid credentials, [/submit] answers the empty array with the
    400 error "Invalid JSON object" and leaves the world as it was, while
    [/submit_flock_logs] answers it with success and processed_count 0. *)
Theorem C9_empty_batch (w : world) (uname tok : string) :
  snd (Api.check_auth uname tok w) = Ok true ->
  Api.submit_route notifications clock
    (mk_request (Some (uname, tok)) (Some (JArr []))) w
  = (w, Ok ([("error", JBool true);
             ("error_msg", JStr "Invalid JSON object")], 400%Z))
  /\
  Api.submit_flock_logs_route
    (mk_request (Some (uname, tok)) (Some (JArr []))) w
  = (w, Ok ([("processed_count", JNum 0); ("error", JBool false)], 200%Z)).
Proof.
  intros Hauth.
  unfold Api.submit_route, Api.submit_flock_logs_route, Api.requires_auth.
  rewrite check_auth_run in Hauth. simpl in Hauth. injection Hauth as Hauth.
  split; simpl; unfold bind at 1; rewrite check_auth_run, Hauth; reflexivity.
Qed.

Lemma osquery_kind_names (K : string) :
  osquery_kind notifications K -> In K (Api.notification_names notifications).
Proof.
  intros (cfg & Hin & Hty). unfold Api.notification_names.
  apply List.in_map_iff. exists (K, cfg). split; [reflexivity |].
  apply List.filter_In. split; [exact Hin |].
  simpl. rewrite Hty. reflexivity.
Qed.

(** C1: when more than one record of the batch has the osquery kind [K] as
    its name, classification adds to the notification log exactly one event
    of kind [K], the summary, whose added_count and removed_count are the
    numbers of those records with action "added" and "removed" and whose
    other_count is the number of the rest (no action included); no
    single-record event of kind [K] is added.  Only the number of records
    decides, not their actions. *)
Theorem C1_burst_summary
  (w : world) (uname : string) (user : User) (docs : list addr) (K : string) :
  osquery_kind notifications K ->
  1 < length (records_of_kind (heap w) K docs) ->
  exists new : list (string * payload),
    Api.classify notifications uname user docs w
    = (set_kb_log (fun l => l ++ new) w, Ok tt) /\
    events_of_kind K new
    = [(K, Lit [("type", JStr "summary");
                ("username", JStr uname);
                ("name", JStr (name user));
                ("added_count",
                 JNum (Z.of_nat (count_action (heap w) "added"
                                   (records_of_kind (heap w) K docs))));
                ("removed_count",
                 JNum (Z.of_nat (count_action (heap w) "removed"
                                   (records_of_kind (heap w) K docs))));
                ("other_count",
                 JNum (Z.of_nat (count_other (heap w)
                                   (records_of_kind (heap w) K docs))))])].
Proof.
  intros HK Hlen. apply osquery_kind_names in HK.
  eexists. split; [apply classify_run |].
  rewrite (classify_events (heap w) uname user docs K HK).
  destruct (records_of_kind (heap w) K docs) as [| a [| b rs]];
    simpl in Hlen; try lia.
  reflexivity.
Qed.

(** C2: when exactly one record of the batch has the osquery kind [K] as its
    name, classification adds exactly one event of kind [K]: the reference
    to that record itself, whose content classification leaves as it is, and
    no summary; when no record has that name, it adds no event of kind
    [K]. *)
Theorem C2_singleton_event
  (w : world) (uname : string) (user : User) (docs : list addr) (K : string) :
  osquery_kind notifications K ->
  exists (new : list (string * payload)) (w' : world),
    Api.classify notifications uname user docs w = (w', Ok tt) /\
    kb_log w' = kb_log w ++ new /\
    heap w' = heap w /\
    (forall a : addr,
        records_of_kind (heap w) K docs = [a] ->
        events_of_kind K new = [(K, Ref a)] /\
        payload_dict (heap w') (Ref a) = obj (heap w) a) /\
    (records_of_kind (heap w) K docs = [] -> events_of_kind K new = []).
Proof.
  intros HK. apply osquery_kind_names in HK.
  eexists. eexists. split; [apply classify_run |].
  split; [reflexivity |]. split; [reflexivity |].
  rewrite (classify_events (heap w) uname user docs K HK).
  split.
  - intros a ->. split; reflexivity.
  - intros ->. reflexivity.
Qed.

(** *** Credentials *)

Lemma no_match_unknown (uname tok : string) (l : list User) :
  ~ In uname (List.map username l) ->
  List.filter (Api.by_username_token uname tok) l = [].
Proof.
  induction l as [| x l IH]; intros Hn; simpl; [reflexivity |].
  unfold Api.by_username_token at 1.
  destruct (String.eqb_spec (username x) uname) as [E | _]; simpl.
  - exfalso. apply Hn. left. exact E.
  - apply IH. intros Hin. apply Hn. right. exact Hin.
Qed.

Lemma one_match_iff (uname tok : string) (l : list User) :
  NoDup (List.map username l) ->
  Nat.eqb (length (List.filter (Api.by_username_token uname tok) l)) 1 = true
  <-> exists u, In u l /\ username u = uname /\ token u = tok.
Proof.
  induction l as [| x l IH]; intros Hnd.
  - simpl. split; [discriminate | intros (u & [] & _)].
  - change (List.map username (x :: l)) with (username x :: List.map username l)
      in Hnd.
    apply NoDup_cons in Hnd. destruct Hnd as [Hx Hnd].
    rewrite list_elem_of_In in Hx.
    simpl. destruct (Api.by_username_token uname tok x) eqn:Ep.
    + unfold Api.by_username_token in Ep. apply andb_prop in Ep.
      destruct Ep as [Eu Et].
      apply String.eqb_eq in Eu. apply String.eqb_eq in Et.
      rewrite Eu in Hx. rewrite (no_match_unknown uname tok l Hx). simpl.
      split; [intros _ | reflexivity].
      exists x. split; [left; reflexivity | split; assumption].
    + rewrite (IH Hnd). split.
      * intros (u & Hin & Hu). exists u. split; [right; exact Hin | exact Hu].
      * intros (u & [<- | Hin] & Hu & Ht).
        -- unfold Api.by_username_token in Ep.
           rewrite Hu, Ht, !String.eqb_refl in Ep. discriminate.
        -- exists u. split; [exact Hin | split; assumption].
Qed.


(** *** Registration *)




(** *** The notification loop of [submit_flock_logs] *)

(** C4 (the code at a validated batch): a record of type twigs_enabled that
    carries type and timestamp passes the validation of
    [/submit_flock_logs]; building its notification then reads the missing
    twig_ids field, and the [KeyError] ends the request instead of the
    success answer. *)
Theorem C4_twigs_without_ids_raise :
  Api.validate_logs 0
    [JObj [("type", JStr "twigs_enabled"); ("timestamp", JNum 1588000000)]]
  = None /\
  Api.submit_flock_logs_route
    (as_alice (JArr [JObj [("type", JStr "twigs_enabled");
                           ("timestamp", JNum 1588000000)]])) w0
  = (w0, Raise KeyError).
Proof. split; vm_compute; reflexivity. Qed.




(** *** The whole [/submit] run, in terms of the batch as submitted *)

Lemma with_timestamp_keeps (k : string) (doc : dict) :
  k <> "@timestamp" -> dict_get k (with_timestamp doc) = dict_get k doc.
Proof.
  intros Hk. unfold with_timestamp.
  destruct (dict_get "unixTime" doc) as [v |]; [| reflexivity].
  destruct (timestamp_of v); [| reflexivity].
  apply dict_get_set_ne, Hk.
Qed.

(** The write loop leaves every field but the three it sets as it was. *)
Lemma stamped_keeps (uname : string) (user : User) (k : string) (doc : dict) :
  k <> "@timestamp" -> k <> "username" -> k <> "user_name" ->
  dict_get k (stamped uname user doc) = dict_get k doc.
Proof.
  intros H1 H2 H3. unfold stamped.
  rewrite !dict_get_set_ne by assumption. apply with_timestamp_keeps, H1.
Qed.

Lemma stamped_field_is (uname : string) (user : User) (k s : string)
  (doc : dict) :
  k <> "@timestamp" -> k <> "username" -> k <> "user_name" ->
  field_is k s (stamped uname user doc) = field_is k s doc.
Proof.
  intros H1 H2 H3. unfold field_is.
  rewrite (stamped_keeps uname user k doc H1 H2 H3). reflexivity.
Qed.

Lemma objs_of_batch (pre ds : list dict) :
  List.map (obj (pre ++ ds)) (seq (length pre) (length ds)) = ds.
Proof.
  revert pre. induction ds as [| d ds IH]; intros pre; [reflexivity |].
  cbn [length seq List.map]. rewrite obj_middle. f_equal.
  specialize (IH (pre ++ [d])). rewrite length_app in IH.
  change (length [d]) with 1 in IH. rewrite Nat.add_1_r in IH.
  rewrite <- List.app_assoc in IH. exact IH.
Qed.

Lemma filter_map_swap {A B : Type} (f : A -> B) (P : B -> bool) (l : list A) :
  List.filter P (List.map f l) = List.map f (List.filter (fun x => P (f x)) l).
Proof.
  induction l as [| x l IH]; simpl; [reflexivity |].
  destruct (P (f x)); simpl; rewrite IH; reflexivity.
Qed.

(** The records of kind [K] among the objects of a batch are the batch
    elements named [K]. *)
Lemma records_of_batch (pre ds : list dict) (K : string) :
  List.map (obj (pre ++ ds))
    (records_of_kind (pre ++ ds) K (seq (length pre) (length ds)))
  = List.filter (field_is "name" K) ds.
Proof.
  unfold records_of_kind.
  rewrite <- (filter_map_swap (obj (pre ++ ds)) (field_is "name" K)).
  rewrite objs_of_batch. reflexivity.
Qed.

Lemma filter_stamped (uname : string) (user : User) (k s : string)
  (ds : list dict) :
  k <> "@timestamp" -> k <> "username" -> k <> "user_name" ->
  List.filter (field_is k s) (List.map (stamped uname user) ds)
  = List.map (stamped uname user) (List.filter (field_is k s) ds).
Proof.
  intros H1 H2 H3. rewrite filter_map_swap. f_equal.
  apply List.filter_ext. intros d. apply stamped_field_is; assumption.
Qed.

(** [/submit] on a validated batch of convertible records, end to end: the
    events of an osquery kind [K] are those of the batch elements named [K]
    as they were submitted - none, the reference to the one record, or the
    summary of their actions. *)
Lemma submit_events_of_kind (w : world) (uname tok : string)
  (items : list json) (K : string) :
  snd (Api.check_auth uname tok w) = Ok true ->
  items <> [] ->
  Forall (fun doc => ~ bad_item uname doc) items ->
  Forall (fun doc => convertible (Api.as_dict doc) = true) items ->
  osquery_kind notifications K ->
  exists (user : User) (w' : world) (new : list (string * payload))
         (rs : list addr),
    submitter uname w = Some user /\
    fst (Api.submit_route notifications clock
           (mk_request (Some (uname, tok)) (Some (JArr items))) w) = w' /\
    kb_log w' = kb_log w ++ new /\
    events_of_kind K new = events_of_group (heap w') uname user (K, rs) /\
    List.map (obj (heap w')) rs
    = List.map (stamped uname user)
        (List.filter (field_is "name" K) (List.map Api.as_dict items)) /\
    count_action (heap w') "added" rs
    = length (List.filter (field_is "action" "added")
                (List.filter (field_is "name" K) (List.map Api.as_dict items))) /\
    count_action (heap w') "removed" rs
    = length (List.filter (field_is "action" "removed")
                (List.filter (field_is "name" K) (List.map Api.as_dict items))).
Proof.
  intros Hauth Hne Hvalid Hconv HK. apply osquery_kind_names in HK.
  destruct (authenticated_submitter uname tok w Hauth) as (user & Hsub & _).
  rewrite (submit_accepted w uname tok items user Hauth Hsub Hne Hvalid).
  pose proof (write_loop_run uname user (List.map Api.as_dict items) (heap w)
                (set_heap (fun h => h ++ List.map Api.as_dict items) w)
                eq_refl) as [Hok _].
  rewrite length_map in Hok. rewrite Hok by (apply Forall_map; exact Hconv).
  cbn [fst heap set_kb_log set_heap kb_log].
  set (ds := List.map Api.as_dict items).
  set (h' := heap w ++ List.map (stamped uname user) ds).
  assert (Hlen : length items = length (List.map (stamped uname user) ds))
    by (unfold ds; rewrite !length_map; reflexivity).
  exists user. eexists. eexists.
  exists (records_of_kind h' K (seq (length (heap w)) (length items))).
  split; [exact Hsub |]. split; [reflexivity |]. split; [reflexivity |].
  split; [apply classify_events, HK |].
  assert (Hrs : List.map (obj h')
                  (records_of_kind h' K (seq (length (heap w)) (length items)))
                = List.map (stamped uname user)
                    (List.filter (field_is "name" K) ds)).
  { unfold h'. rewrite Hlen, records_of_batch.
    apply filter_stamped; discriminate. }
  split; [exact Hrs |].
  unfold count_action. cbn [heap set_kb_log]. fold h'.
  split.
  - rewrite <- (length_map (obj h')), <- filter_map_swap, Hrs.
    rewrite filter_stamped by discriminate. apply length_map.
  - rewrite <- (length_map (obj h')), <- filter_map_swap, Hrs.
    rewrite filter_stamped by discriminate. apply length_map.
Qed.

End Properties.

(** * Further properties of the handlers *)

Section MoreProperties.

Variable notifications : list (string * Api.notification_settings).
Variable clock : nat -> datetime.
Variable token_hex : nat -> string.

(** ** [register] *)

Lemma valid_chars_class (c : ascii) :
  Api.char_in c Api.valid_chars = username_char c.
Proof.
  destruct c as [[] [] [] [] [] [] [] []]; vm_compute; reflexivity.
Qed.

Lemma username_ok_class (u : string) :
  Api.username_ok u = forallb username_char (list_ascii_of_string u).
Proof.
  unfold Api.username_ok.
  induction (list_ascii_of_string u) as [| c l IH]; simpl; [reflexivity |].
  rewrite valid_chars_class, IH. reflexivity.
Qed.

Lemma filter_unknown_username (u : string) (l : list User) :
  (forall x, In x l -> username x <> u) ->
  List.filter (Api.by_username u) l = [].
Proof.
  induction l as [| x l IH]; intros Hfresh; simpl; [reflexivity |].
  unfold Api.by_username at 1.
  destruct (String.eqb_spec (username x) u) as [E | _].
  - exfalso. apply (Hfresh x); [left; reflexivity | exact E].
  - apply IH. intros y Hy. apply Hfresh. right. exact Hy.
Qed.

(** X1: [register] answers a body without a usable username, or with a
    username holding a character outside [A-Za-z0-9_-], with a 400 error and
    leaves the world as it was; the second check comes before the lookup of
    the username and before the name is read. *)
Theorem register_input_rejected (w : world) (auth : option (string * string)) :
  (forall body : json,
      truthy body = false ->
      Api.register token_hex (mk_request auth (Some body)) w
      = (w, Ok ([("error", JBool true);
                 ("error_msg", JStr "Invalid JSON object")], 400%Z)))
  /\
  (forall d : dict,
      d <> [] ->
      (dict_get "username" d = None \/ dict_get "username" d = Some JNull
       \/ dict_get "username" d = Some (JStr "")) ->
      Api.register token_hex (mk_request auth (Some (JObj d))) w
      = (w, Ok ([("error", JBool true);
                 ("error_msg", JStr "You must provide a username")], 400%Z)))
  /\
  (forall (d : dict) (u : string) (c : ascii),
      dict_get "username" d = Some (JStr u) ->
      In c (list_ascii_of_string u) -> username_char c = false ->
      Api.register token_hex (mk_request auth (Some (JObj d))) w
      = (w, Ok ([("error", JBool true);
                 ("error_msg",
                  JStr "Usernames must only contain letters, numbers, '-', or '_'")],
                400%Z))).
Proof.
  split; [| split].
  - intros body Hf. unfold Api.register. cbn [req_json]. rewrite Hf.
    reflexivity.
  - intros d Hd Hu. unfold Api.register. cbn [req_json].
    destruct d as [| kv d]; [contradiction |]. cbn [truthy negb].
    destruct Hu as [-> | [-> | ->]]; reflexivity.
  - intros d u c Hu Hin Hc.
    assert (Hbad : Api.username_ok u = false).
    { rewrite username_ok_class. apply not_true_is_false. intros Hall.
      rewrite List.forallb_forall in Hall. rewrite (Hall c Hin) in Hc.
      discriminate. }
    assert (Hne : negb (String.eqb u "") = true).
    { destruct u; [destruct Hin | reflexivity]. }
    unfold Api.register. cbn [req_json].
    destruct d as [| kv d]; [discriminate Hu |]. cbn [truthy negb].
    rewrite Hu. change (default JNull (Some (JStr u))) with (JStr u).
    cbn [truthy]. rewrite Hne. cbn [negb].
    destruct (default (JStr "") (dict_get "name" (kv :: d)));
      rewrite Hbad; reflexivity.
Qed.

(** X2: a first registration - a username of the class, not yet in the
    principal set, the name a string or absent - stores the principal with
    the drawn token and the stripped name behind the others, records a
    user_registered event, answers with the token; and the credential check
    then accepts exactly that pair. *)
Theorem register_then_authenticate
  (w : world) (auth : option (string * string)) (d : dict) (u : string) :
  dict_get "username" d = Some (JStr u) ->
  u <> "" -> Api.username_ok u = true ->
  (dict_get "name" d = None \/ exists nm, dict_get "name" d = Some (JStr nm)) ->
  (forall x, In x (user_index w) -> username x <> u) ->
  exists w' : world,
    Api.register token_hex (mk_request auth (Some (JObj d))) w
    = (w', Ok ([("auth_token", JStr (token_hex (draws w)));
                ("error", JBool false)], 200%Z)) /\
    user_index w'
    = user_index w ++ [mk_User u (registered_name d) (token_hex (draws w))] /\
    kb_log w'
    = kb_log w ++ [("user_registered",
                    Lit [("username", JStr u);
                         ("name", JStr (registered_name d))])] /\
    es_log w' = es_log w /\
    Api.check_auth u (token_hex (draws w)) w' = (w', Ok true).
Proof.
  intros Hu Hne Hok Hname Hfresh.
  assert (Htruthy : truthy (JObj d) = true).
  { destruct d; [discriminate Hu | reflexivity]. }
  assert (Hu_truthy : negb (String.eqb u "") = true).
  { destruct (String.eqb_spec u ""); [contradiction | reflexivity]. }
  pose proof (filter_unknown_username u (user_index w) Hfresh) as Hnone.
  assert (Hauth : forall nm,
            Api.check_auth u (token_hex (draws w))
              (mk_world (user_index w ++ [mk_User u nm (token_hex (draws w))])
                 (es_log w)
                 (kb_log w ++ [("user_registered",
                                Lit [("username", JStr u); ("name", JStr nm)])])
                 (heap w) (ticks w) (S (draws w)))
            = (mk_world (user_index w ++ [mk_User u nm (token_hex (draws w))])
                 (es_log w)
                 (kb_log w ++ [("user_registered",
                                Lit [("username", JStr u); ("name", JStr nm)])])
                 (heap w) (ticks w) (S (draws w)), Ok true)).
  { intros nm. rewrite check_auth_run. cbn [user_index].
    rewrite List.filter_app, no_match_unknown.
    - simpl. unfold Api.by_username_token. cbn [username token].
      rewrite !String.eqb_refl. reflexivity.
    - intros Hin. apply List.in_map_iff in Hin.
      destruct Hin as (x & Hx & Hin). exact (Hfresh x Hin Hx). }
  unfold Api.register, registered_name.
  cbn [req_json]. rewrite Htruthy. cbn [negb]. rewrite Hu.
  change (default JNull (Some (JStr u))) with (JStr u).
  cbn [truthy]. rewrite Hu_truthy. cbn [negb].
  destruct Hname as [Hn | [nm Hn]]; rewrite Hn;
    [change (default (JStr "") None) with (JStr "")
    | change (default (JStr "") (Some (JStr nm))) with (JStr nm)];
    rewrite Hok; cbn [negb];
    unfold bind, Api.search_user, gets, Api.kb_add, modify, ret,
      Api.secrets_token_hex;
    rewrite Hnone; cbn [length Nat.eqb negb];
    (eexists; split; [reflexivity |]);
    cbn [user_index kb_log es_log set_kb_log set_user_index set_draws draws];
    (split; [reflexivity |]); (split; [reflexivity |]);
    (split; [reflexivity |]); apply Hauth.
Qed.




(** ** [requires_auth], [/ping] and [get_name] *)

Lemma requires_auth_cases
  (f : string * string -> request -> M response) (req : request) (w : world) :
  Api.requires_auth f req w = (w, Ok Api.authenticate) \/
  exists auth : string * string,
    authorization req = Some auth /\
    snd (Api.check_auth (fst auth) (snd auth) w) = Ok true /\
    Api.requires_auth f req w = f auth req w.
Proof.
  unfold Api.requires_auth.
  destruct (authorization req) as [[uname tok] |]; [| left; reflexivity].
  unfold bind. rewrite check_auth_run.
  destruct (Nat.eqb _ 1) eqn:E; [| left; reflexivity].
  right. exists (uname, tok). split; [reflexivity |].
  split; [| reflexivity]. rewrite check_auth_run. cbn [fst snd].
  rewrite E. reflexivity.
Qed.

Lemma check_auth_no_principal (w : world) (uname tok : string) :
  ~ (exists x, In x (user_index w) /\ username x = uname /\ token x = tok) ->
  Api.check_auth uname tok w = (w, Ok false).
Proof.
  intros Hno. rewrite check_auth_run.
  destruct (List.filter (Api.by_username_token uname tok) (user_index w))
    as [| x l] eqn:Ef; [reflexivity |].
  exfalso. apply Hno. exists x.
  assert (Hx : In x (List.filter (Api.by_username_token uname tok)
                       (user_index w))) by (rewrite Ef; left; reflexivity).
  apply List.filter_In in Hx. destruct Hx as [Hin Hp].
  unfold Api.by_username_token in Hp. apply andb_prop in Hp.
  destruct Hp as [Hu Ht]. apply String.eqb_eq in Hu. apply String.eqb_eq in Ht.
  split; [exact Hin | split; assumption].
Qed.

(** X5: a request without credentials, or with a name and token that no
    principal holds, is answered 401 with an empty body by [/ping], [/submit]
    and [/submit_flock_logs] alike, whatever its body, and the world is left
    as it was. *)
Theorem unknown_credentials_refused
  (w : world) (cred : option (string * string)) (body : option json) :
  (forall uname tok, cred = Some (uname, tok) ->
     ~ (exists x, In x (user_index w) /\ username x = uname /\ token x = tok)) ->
  Api.ping_route (mk_request cred body) w = (w, Ok ([], 401%Z)) /\
  Api.submit_route notifications clock (mk_request cred body) w
  = (w, Ok ([], 401%Z)) /\
  Api.submit_flock_logs_route (mk_request cred body) w = (w, Ok ([], 401%Z)).
Proof.
  intros Hno.
  unfold Api.ping_route, Api.submit_route, Api.submit_flock_logs_route,
    Api.requires_auth.
  cbn [authorization].
  destruct cred as [[uname tok] |]; [| repeat split; reflexivity].
  unfold bind. rewrite (check_auth_no_principal w uname tok (Hno _ _ eq_refl)).
  repeat split; reflexivity.
Qed.

(** X6: with usernames unique, [/ping] answers success exactly when a
    principal holds the name and token sent, and 401 otherwise; it never
    changes the world. *)
Theorem ping_answers (w : world) (uname tok : string) (body : option json) :
  NoDup (List.map username (user_index w)) ->
  exists ok : bool,
    Api.ping_route (mk_request (Some (uname, tok)) body) w
    = (w, Ok (if ok then ([("error", JBool false)], 200%Z) else ([], 401%Z)))
    /\
    (ok = true <->
     exists x, In x (user_index w) /\ username x = uname /\ token x = tok).
Proof.
  intros Hnd.
  exists (Nat.eqb (length (List.filter (Api.by_username_token uname tok)
                             (user_index w))) 1).
  split; [| apply one_match_iff, Hnd].
  unfold Api.ping_route, Api.requires_auth. cbn [authorization].
  unfold bind. rewrite check_auth_run.
  destruct (Nat.eqb _ 1); reflexivity.
Qed.

(** X7: for a caller whom the credential check accepts, usernames being
    unique, [get_name] returns the display name of the principal that holds
    the caller's token. *)
Theorem get_name_of_caller (w : world) (uname tok : string) :
  NoDup (List.map username (user_index w)) ->
  snd (Api.check_auth uname tok w) = Ok true ->
  exists user : User,
    In user (user_index w) /\ username user = uname /\ token user = tok /\
    Api.get_name (uname, tok) w = (w, Ok (JStr (name user))).
Proof.
  intros Hnd Hauth. rewrite check_auth_run in Hauth. cbn [snd] in Hauth.
  injection Hauth as Hauth.
  apply (one_match_iff uname tok _ Hnd) in Hauth.
  destruct Hauth as (user & Hin & Hu & Ht).
  exists user. split; [exact Hin |]. split; [exact Hu |]. split; [exact Ht |].
  unfold Api.get_name, bind, Api.search_user, gets. cbn [fst].
  assert (Hf : List.filter (Api.by_username uname) (user_index w) = [user]).
  { clear Ht. revert Hnd Hin. generalize (user_index w) as l.
    induction l as [| x l IH]; intros Hnd Hin; [destruct Hin |].
    change (List.map username (x :: l)) with (username x :: List.map username l)
      in Hnd.
    apply NoDup_cons in Hnd. destruct Hnd as [Hx Hnd].
    rewrite list_elem_of_In in Hx. simpl.
    destruct Hin as [-> | Hin].
    - unfold Api.by_username at 1. rewrite Hu, String.eqb_refl.
      rewrite filter_unknown_username; [reflexivity |].
      intros y Hy E. apply Hx. rewrite Hu, <- E.
      apply List.in_map. exact Hy.
    - unfold Api.by_username at 1.
      destruct (String.eqb_spec (username x) uname) as [E | _].
      + exfalso. apply Hx. rewrite E, <- Hu. apply List.in_map. exact Hin.
      + apply IH; assumption. }
  rewrite Hf. reflexivity.
Qed.

(** ** [submit_flock_logs] *)

Lemma dict_has_false (k : string) (d : dict) :
  dict_has k d = false <-> dict_get k d = None.
Proof.
  unfold dict_has. destruct (dict_get k d); split; congruence.
Qed.

Lemma str_in_two (v : json) (a b : string) :
  str_in v [a; b] = true <-> v = JStr a \/ v = JStr b.
Proof.
  unfold str_in. simpl. rewrite orb_false_r, orb_true_iff, !str_eq_true.
  reflexivity.
Qed.

Lemma check_log_item_spec (i : nat) (doc : json) :
  match Api.check_log_item i doc with
  | None => ~ bad_log_item doc
  | Some msg => bad_log_item doc /\ In msg (log_item_messages i)
  end.
Proof.
  unfold log_item_messages, Api.check_log_item, bad_log_item.
  destruct doc as [| b | n | f | s | items | d]; cbv beta iota;
    try (split; [exact I | left; reflexivity]).
  destruct (dict_get "type" d) as [ty |] eqn:Ety.
  - destruct (dict_has "timestamp" d) eqn:Ets; cbn [negb].
    + assert (Hts : dict_get "timestamp" d <> None).
      { intros E. apply dict_has_false in E. congruence. }
      destruct (str_in ty ["enable_twig"; "disable_twig"]) eqn:Etw;
        cbn [andb].
      * apply str_in_two in Etw.
        destruct (dict_has "twig_id" d) eqn:Eid; cbn [negb].
        -- assert (Hid : dict_get "twig_id" d <> None).
           { intros E. apply dict_has_false in E. congruence. }
           intros [H | [H | [_ H]]]; [discriminate | |]; contradiction.
        -- apply dict_has_false in Eid. split.
           ++ right. right. split; [| exact Eid].
              destruct Etw as [-> | ->]; [left | right]; reflexivity.
           ++ right; right; right; left; reflexivity.
      * intros [H | [H | [[H | H] _]]]; try discriminate; try contradiction.
        -- injection H as ->. discriminate Etw.
        -- injection H as ->. discriminate Etw.
    + apply dict_has_false in Ets. split.
      * right. left. exact Ets.
      * right; right; left; reflexivity.
  - split; [left; reflexivity | right; left; reflexivity].
Qed.

Lemma validate_logs_spec (items : list json) : forall k : nat,
  match Api.validate_logs k items with
  | None => Forall (fun doc => ~ bad_log_item doc) items
  | Some msg =>
      exists (i : nat) (doc : json),
        items !! i = Some doc /\ bad_log_item doc /\
        (forall (j : nat) (doc' : json),
            j < i -> items !! j = Some doc' -> ~ bad_log_item doc') /\
        In msg (log_item_messages (k + i))
  end.
Proof.
  induction items as [| doc rest IH]; intros k; simpl.
  - constructor.
  - pose proof (check_log_item_spec k doc) as Hc.
    destruct (Api.check_log_item k doc) as [msg |].
    + destruct Hc as [Hbad Hmsg]. exists 0, doc.
      rewrite Nat.add_0_r. split; [reflexivity |]. split; [exact Hbad |].
      split; [intros j doc' Hj; lia | exact Hmsg].
    + specialize (IH (S k)).
      destruct (Api.validate_logs (S k) rest) as [msg |].
      * destruct IH as (i & d & Hi & Hbad & Hfirst & Hmsg).
        exists (S i), d. split; [exact Hi |]. split; [exact Hbad |].
        split.
        -- intros [| j] doc' Hj Hl; simpl in Hl.
           ++ injection Hl as <-. exact Hc.
           ++ apply (Hfirst j); [lia | exact Hl].
        -- replace (k + S i) with (S k + i) by lia. exact Hmsg.
      * constructor; assumption.
Qed.

(** X8: [/submit_flock_logs] answers a body that is not an array, or an array
    with an element that is not an object, lacks type or timestamp, or is of
    type enable_twig or disable_twig without twig_id, with a 400 error and
    leaves the world as it was; for an array the message is one of the four
    item messages at the index of the first such element. *)
Theorem invalid_logs_rejected
  (w : world) (uname tok : string) (body : option json) :
  snd (Api.check_auth uname tok w) = Ok true ->
  ((forall items, body <> Some (JArr items)) \/
   (exists items doc, body = Some (JArr items) /\ In doc items
                      /\ bad_log_item doc)) ->
  exists msg : string,
    Api.submit_flock_logs_route (mk_request (Some (uname, tok)) body) w
    = (w, Ok ([("error", JBool true); ("error_msg", JStr msg)], 400%Z)) /\
    (forall items, body = Some (JArr items) ->
       exists (i : nat) (doc : json),
         items !! i = Some doc /\ bad_log_item doc /\
         (forall (j : nat) (doc' : json),
             j < i -> items !! j = Some doc' -> ~ bad_log_item doc') /\
         In msg (log_item_messages i)).
Proof.
  intros Hauth Hbody.
  rewrite check_auth_run in Hauth. cbn [snd] in Hauth. injection Hauth as Hauth.
  unfold Api.submit_flock_logs_route, Api.requires_auth. cbn [authorization].
  unfold bind at 1. rewrite check_auth_run, Hauth.
  unfold Api.submit_flock_logs. cbn [req_json].
  destruct Hbody as [Hna | (items & doc & -> & Hin & Hbad)].
  - destruct body as [[| b | n | f | s | items | d] |];
      try (exfalso; eapply Hna; reflexivity);
      (eexists; split; [reflexivity | intros ? [=]]).
  - pose proof (validate_logs_spec items 0) as Hv.
    destruct (Api.validate_logs 0 items) as [msg |].
    + exists msg. split; [reflexivity |].
      intros items' [= <-]. exact Hv.
    + exfalso. rewrite Forall_forall in Hv.
      apply (Hv doc); [apply list_elem_of_In; exact Hin | exact Hbad].
Qed.

Lemma validate_logs_accepts (items : list json) :
  Forall (fun doc => ~ bad_log_item doc) items ->
  Api.validate_logs 0 items = None.
Proof.
  intros Hall. pose proof (validate_logs_spec items 0) as Hv.
  destruct (Api.validate_logs 0 items) as [msg |]; [| reflexivity].
  destruct Hv as (i & doc & Hi & Hbad & _).
  rewrite Forall_forall in Hall. exfalso.
  apply (Hall doc); [| exact Hbad].
  apply list_elem_of_lookup. exists i. exact Hi.
Qed.

Lemma set_kb_log_nil (w : world) : set_kb_log (fun l => l ++ []) w = w.
Proof. destruct w; unfold set_kb_log; simpl. rewrite List.app_nil_r. reflexivity. Qed.

Lemma set_kb_log_app (evs evs' : list (string * payload)) (w : world) :
  set_kb_log (fun l => l ++ evs') (set_kb_log (fun l => l ++ evs) w)
  = set_kb_log (fun l => l ++ evs ++ evs') w.
Proof.
  destruct w; unfold set_kb_log; simpl. rewrite List.app_assoc. reflexivity.
Qed.

(** One round of the notification loop on a record that passed validation. *)
Lemma notify_log_run (auth : string * string) (doc : json) (w : world) :
  ~ bad_log_item doc ->
  Api.notify_log auth doc w
  = if notifiable doc
    then (set_kb_log
            (fun l => l ++ log_events (fst auth) (name_of_caller auth w) doc) w,
          Ok tt)
    else (w, Raise KeyError).
Proof.
  intros Hok. destruct doc as [| | | | | | d]; try (exfalso; apply Hok; exact I).
  simpl in Hok.
  unfold notifiable, twigs_kind, log_events, Api.notify_log, name_of_caller.
  cbn [Api.as_dict].
  unfold dict_item, dict_has, lift, bind at 1.
  destruct (dict_get "type" d) as [ty |] eqn:Ety; [| tauto].
  assert (Hname : exists nm, Api.get_name auth w = (w, Ok nm)).
  { unfold Api.get_name, bind, Api.search_user, gets, ret.
    destruct (List.filter _ _) as [| x [| y l]]; eexists; reflexivity. }
  destruct Hname as [nm Hnm]. rewrite Hnm. cbn [snd].
  destruct ty as [| | | | ty | |];
    try (cbn; rewrite set_kb_log_nil; reflexivity).
  destruct (str_in (JStr ty) ["server_enabled"; "server_disabled"]) eqn:Es.
  - assert (Ht : str_in (JStr ty) ["twigs_enabled"; "twigs_disabled"] = false).
    { apply str_in_two in Es. destruct Es as [[= ->] | [= ->]]; reflexivity. }
    assert (Hall : str_in (JStr ty) ["server_enabled"; "server_disabled";
                                     "twigs_enabled"; "twigs_disabled"] = true).
    { apply str_in_two in Es. destruct Es as [[= ->] | [= ->]]; reflexivity. }
    rewrite Hall, Ht. cbn [negb orb].
    unfold bind. rewrite Hnm. reflexivity.
  - destruct (str_in (JStr ty) ["twigs_enabled"; "twigs_disabled"]) eqn:Et.
    + assert (Hall : str_in (JStr ty) ["server_enabled"; "server_disabled";
                                       "twigs_enabled"; "twigs_disabled"] = true).
      { apply str_in_two in Et. destruct Et as [[= ->] | [= ->]]; reflexivity. }
      rewrite Hall. cbn [negb orb].
      unfold bind. rewrite Hnm. rewrite ?Et.
      destruct (dict_get "twig_ids" d) as [ids |]; reflexivity.
    + assert (Hall : str_in (JStr ty) ["server_enabled"; "server_disabled";
                                       "twigs_enabled"; "twigs_disabled"] = false).
      { unfold str_in in *. simpl in *.
        rewrite !orb_false_r in *. apply orb_false_iff in Es, Et.
        destruct Es as [-> ->], Et as [-> ->]. reflexivity. }
      rewrite Hall. cbn [negb orb]. rewrite set_kb_log_nil. reflexivity.
Qed.

Lemma for_each_app {A : Type} (body : A -> M unit) (xs ys : list A) :
  forall w : world,
    for_each body (xs ++ ys) w
    = match for_each body xs w with
      | (w', Ok _) => for_each body ys w'
      | (w', Raise e) => (w', Raise e)
      end.
Proof.
  induction xs as [| x xs IH]; intros w; [reflexivity |].
  change ((x :: xs) ++ ys) with (x :: (xs ++ ys)). rewrite !for_each_step.
  destruct (body x w) as [w1 [[] | e]]; [apply IH | reflexivity].
Qed.

(** A list either satisfies a test throughout or has a first element that
    fails it. *)
Lemma first_failure {A : Type} (p : A -> bool) (l : list A) :
  Forall (fun x => p x = true) l \/
  exists pre x post,
    l = pre ++ x :: post /\ Forall (fun x => p x = true) pre /\ p x = false.
Proof.
  induction l as [| x l IH]; [left; constructor |].
  destruct (p x) eqn:E.
  - destruct IH as [Hall | (pre & y & post & -> & Hpre & Hy)].
    + left. constructor; assumption.
    + right. exists (x :: pre), y, post.
      split; [reflexivity |]. split; [constructor; assumption | exact Hy].
  - right. exists [], x, l. split; [reflexivity |].
    split; [constructor | exact E].
Qed.

Lemma name_of_caller_notified (auth : string * string)
  (f : list (string * payload) -> list (string * payload)) (w : world) :
  name_of_caller auth (set_kb_log f w) = name_of_caller auth w.
Proof.
  unfold name_of_caller, Api.get_name, bind, Api.search_user, gets, ret.
  cbn [user_index set_kb_log].
  destruct (List.filter _ _) as [| x [| y l]]; reflexivity.
Qed.

Lemma logs_loop_ok (auth : string * string) (items : list json) :
  forall w : world,
    Forall (fun doc => ~ bad_log_item doc) items ->
    Forall (fun doc => notifiable doc = true) items ->
    for_each (Api.notify_log auth) items w
    = (set_kb_log
         (fun l => l ++ List.flat_map
                          (log_events (fst auth) (name_of_caller auth w)) items)
         w, Ok tt).
Proof.
  induction items as [| doc items IH]; intros w Hvalid Hnot.
  - simpl. unfold ret. rewrite set_kb_log_nil. reflexivity.
  - apply Forall_cons in Hvalid. destruct Hvalid as [Hd Hvalid].
    apply Forall_cons in Hnot. destruct Hnot as [Hn Hnot].
    rewrite for_each_step, (notify_log_run auth doc w Hd), Hn.
    rewrite (IH _ Hvalid Hnot). rewrite set_kb_log_app.
    rewrite name_of_caller_notified. reflexivity.
Qed.

Lemma logs_loop_raise (auth : string * string) (pre post : list json)
  (doc : json) (w : world) :
  Forall (fun doc => ~ bad_log_item doc) (pre ++ doc :: post) ->
  Forall (fun doc => notifiable doc = true) pre ->
  notifiable doc = false ->
  for_each (Api.notify_log auth) (pre ++ doc :: post) w
  = (set_kb_log
       (fun l => l ++ List.flat_map
                        (log_events (fst auth) (name_of_caller auth w)) pre)
       w, Raise KeyError).
Proof.
  intros Hvalid Hpre Hdoc. apply Forall_app in Hvalid.
  destruct Hvalid as [Hvpre Hvrest].
  apply Forall_cons in Hvrest. destruct Hvrest as [Hvdoc _].
  rewrite for_each_app, (logs_loop_ok auth pre w Hvpre Hpre).
  rewrite for_each_step, (notify_log_run auth doc _ Hvdoc), Hdoc.
  reflexivity.
Qed.

Lemma logs_route_accepted (w : world) (uname tok : string) (items : list json) :
  snd (Api.check_auth uname tok w) = Ok true ->
  Forall (fun doc => ~ bad_log_item doc) items ->
  Api.submit_flock_logs_route
    (mk_request (Some (uname, tok)) (Some (JArr items))) w
  = match for_each (Api.notify_log (uname, tok)) items w with
    | (w', Ok _) =>
        (w', Ok ([("processed_count", JNum (Z.of_nat (length items)));
                  ("error", JBool false)], 200%Z))
    | (w', Raise e) => (w', Raise e)
    end.
Proof.
  intros Hauth Hvalid.
  rewrite check_auth_run in Hauth. cbn [snd] in Hauth. injection Hauth as Hauth.
  unfold Api.submit_flock_logs_route, Api.requires_auth. cbn [authorization].
  unfold bind at 1. rewrite check_auth_run, Hauth.
  unfold Api.submit_flock_logs. cbn [req_json].
  rewrite (validate_logs_accepts items Hvalid). unfold bind.
  destruct (for_each (Api.notify_log (uname, tok)) items w) as [w' [[] | e]];
    reflexivity.
Qed.

(** X9: for a batch of log records that passes validation and whose
    twigs_enabled and twigs_disabled records carry twig_ids,
    [/submit_flock_logs] records one event per state-change record, in batch
    order and of the record's type, with the caller's username and display
    name and, for the twigs kinds, the record's twig_ids; other records give
    no event; nothing else in the world changes and the answer is success
    with processed_count the number of records. *)
Theorem logs_notified (w : world) (uname tok : string) (items : list json) :
  snd (Api.check_auth uname tok w) = Ok true ->
  Forall (fun doc => ~ bad_log_item doc) items ->
  Forall (fun doc => notifiable doc = true) items ->
  Api.submit_flock_logs_route
    (mk_request (Some (uname, tok)) (Some (JArr items))) w
  = (set_kb_log
       (fun l => l ++ List.flat_map
                        (log_events uname (name_of_caller (uname, tok) w)) items)
       w,
     Ok ([("processed_count", JNum (Z.of_nat (length items)));
          ("error", JBool false)], 200%Z)).
Proof.
  intros Hauth Hvalid Hnot.
  rewrite (logs_route_accepted w uname tok items Hauth Hvalid).
  rewrite (logs_loop_ok (uname, tok) items w Hvalid Hnot). reflexivity.
Qed.

(** X10: when a batch of log records passes validation and its first
    twigs_enabled or twigs_disabled record without twig_ids has only
    notifiable records before it, [/submit_flock_logs] ends in [KeyError]
    with the events of those earlier records already recorded. *)
Theorem logs_without_twig_ids_raise
  (w : world) (uname tok : string) (pre post : list json) (doc : json) :
  snd (Api.check_auth uname tok w) = Ok true ->
  Forall (fun doc => ~ bad_log_item doc) (pre ++ doc :: post) ->
  Forall (fun doc => notifiable doc = true) pre ->
  notifiable doc = false ->
  Api.submit_flock_logs_route
    (mk_request (Some (uname, tok)) (Some (JArr (pre ++ doc :: post)))) w
  = (set_kb_log
       (fun l => l ++ List.flat_map
                        (log_events uname (name_of_caller (uname, tok) w)) pre)
       w, Raise KeyError).
Proof.
  intros Hauth Hvalid Hpre Hdoc.
  rewrite (logs_route_accepted w uname tok _ Hauth Hvalid).
  rewrite (logs_loop_raise (uname, tok) pre post doc w Hvalid Hpre Hdoc).
  reflexivity.
Qed.

Lemma only_notified_refl (w : world) : only_notified w w.
Proof.
  unfold only_notified. repeat (split; [reflexivity |]).
  exists []. symmetry. apply List.app_nil_r.
Qed.

Lemma only_notified_add (evs : list (string * payload)) (w : world) :
  only_notified w (set_kb_log (fun l => l ++ evs) w).
Proof.
  unfold only_notified. repeat (split; [reflexivity |]).
  exists evs. reflexivity.
Qed.

(** X11: whatever the request and however it ends, [/submit_flock_logs]
    indexes no document, changes no principal and no dict object; it only
    adds events to the notification log. *)
Theorem logs_only_notify (req : request) (w : world) :
  only_notified w (fst (Api.submit_flock_logs_route req w)).
Proof.
  destruct (requires_auth_cases Api.submit_flock_logs req w)
    as [E | ([uname tok] & Hcred & Hauth & E)];
    unfold Api.submit_flock_logs_route; rewrite E;
    [apply only_notified_refl |].
  cbn [fst snd] in Hauth.
  destruct req as [cred body]. cbn [authorization] in Hcred. subst cred.
  assert (Hquiet : forall msg,
            Api.submit_flock_logs (uname, tok)
              (mk_request (Some (uname, tok)) body) w
            = (w, Ok (Api.api_error msg)) ->
            only_notified w
              (fst (Api.submit_flock_logs (uname, tok)
                      (mk_request (Some (uname, tok)) body) w))).
  { intros msg ->. apply only_notified_refl. }
  destruct body as [[| b | n | f | s | items | d] |];
    try (eapply Hquiet; reflexivity).
  pose proof (validate_logs_spec items 0) as Hv.
  destruct (Api.validate_logs 0 items) as [msg |] eqn:Ev.
  { eapply Hquiet. unfold Api.submit_flock_logs. cbn [req_json].
    rewrite Ev. reflexivity. }
  pose proof (logs_route_accepted w uname tok items Hauth Hv) as Hrun.
  unfold Api.submit_flock_logs_route in Hrun. rewrite E in Hrun. rewrite Hrun.
  destruct (first_failure notifiable items)
    as [Hall | (pre & doc & post & -> & Hpre & Hdoc)].
  - rewrite (logs_loop_ok (uname, tok) items w Hv Hall).
    apply only_notified_add.
  - rewrite (logs_loop_raise (uname, tok) pre post doc w Hv Hpre Hdoc).
    apply only_notified_add.
Qed.

(** ** The debug log of [api_error] *)





(** ** [submit]: what every run leaves behind *)

(** The write loop over a stretch of convertible records, with objects
    before and behind it on the heap. *)
Lemma write_loop_stretch (uname : string) (user : User) (ds : list dict) :
  forall (pre post : list dict) (w : world),
    heap w = pre ++ ds ++ post ->
    Forall (fun d => convertible d = true) ds ->
    for_each (Api.index_doc clock uname user) (seq (length pre) (length ds)) w
    = (mk_world (user_index w)
         (es_log w ++ indexed_docs clock uname user (ticks w) ds)
         (kb_log w)
         (pre ++ List.map (stamped uname user) ds ++ post)
         (ticks w + length ds) (draws w), Ok tt).
Proof.
  unfold indexed_docs.
  induction ds as [| d ds IH]; intros pre post w Hh Hall.
  - simpl. unfold ret. rewrite List.app_nil_r, Nat.add_0_r.
    destruct w; simpl in *. subst. reflexivity.
  - apply Forall_cons in Hall. destruct Hall as [Hc Hall].
    assert (Ha : length pre < length (heap w)).
    { rewrite Hh, length_app. simpl. lia. }
    assert (Hobj : obj (heap w) (length pre) = d).
    { rewrite Hh. exact (obj_middle pre (ds ++ post) d). }
    cbn [length seq]. rewrite for_each_step.
    rewrite (index_doc_ok clock uname user (length pre) w Ha)
      by (rewrite Hobj; exact Hc).
    assert (Hh' : heap (indexed clock uname user (length pre) w)
                  = (pre ++ [stamped uname user d]) ++ ds ++ post).
    { unfold indexed. cbn [heap]. rewrite Hobj, Hh.
      rewrite insert_app_r_alt by lia. rewrite Nat.sub_diag. simpl.
      rewrite <- List.app_assoc. reflexivity. }
    specialize (IH (pre ++ [stamped uname user d]) post
                  (indexed clock uname user (length pre) w) Hh' Hall).
    rewrite length_app in IH. change (length [stamped uname user d]) with 1 in IH.
    rewrite Nat.add_1_r in IH. rewrite IH. unfold indexed.
    cbn [user_index es_log kb_log ticks draws heap].
    rewrite Hobj, <- !List.app_assoc. rewrite imap_cons.
    f_equal. f_equal; [| cbn [length]; lia].
    f_equal. cbn [List.app]. rewrite Nat.add_0_r. f_equal.
    apply imap_ext. intros i x _. cbn [compose].
    replace (S (ticks w) + i) with (ticks w + S i) by lia. reflexivity.
Qed.

(** [/submit] on a validated batch of convertible records: the world it
    leaves. *)
Lemma submit_ok_run (w : world) (uname tok : string) (items : list json)
  (user : User) :
  snd (Api.check_auth uname tok w) = Ok true ->
  submitter uname w = Some user ->
  items <> [] ->
  Forall (fun doc => ~ bad_item uname doc) items ->
  Forall (fun d => convertible d = true) (List.map Api.as_dict items) ->
  Api.submit_route notifications clock
    (mk_request (Some (uname, tok)) (Some (JArr items))) w
  = (mk_world (user_index w)
       (es_log w ++ indexed_docs clock uname user (ticks w)
                      (List.map Api.as_dict items))
       (kb_log w
        ++ List.flat_map
             (events_of_group
                (heap w ++ List.map (stamped uname user)
                             (List.map Api.as_dict items)) uname user)
             (Api.group_docs notifications
                (heap w ++ List.map (stamped uname user)
                             (List.map Api.as_dict items))
                (seq (length (heap w)) (length items))))
       (heap w ++ List.map (stamped uname user) (List.map Api.as_dict items))
       (ticks w + length items) (draws w),
     Ok ([("processed_count", JNum (Z.of_nat (length items)));
          ("error", JBool false)], 200%Z)).
Proof.
  intros Hauth Hsub Hne Hvalid Hconv.
  rewrite (submit_accepted notifications clock w uname tok items user Hauth Hsub
             Hne Hvalid).
  pose proof (write_loop_stretch uname user (List.map Api.as_dict items)
                (heap w) []
                (set_heap (fun h => h ++ List.map Api.as_dict items) w)) as Hloop.
  rewrite length_map in Hloop. rewrite Hloop.
  - rewrite !List.app_nil_r. cbn [ticks set_heap]. reflexivity.
  - cbn [heap set_heap]. rewrite List.app_nil_r. reflexivity.
  - exact Hconv.
Qed.

(** [/submit] on a validated batch whose first record that cannot be
    converted has the records [pre] before it: the world it leaves. *)
Lemma submit_partial_run (w : world) (uname tok : string) (items : list json)
  (user : User) (pre post : list dict) (d : dict) :
  snd (Api.check_auth uname tok w) = Ok true ->
  submitter uname w = Some user ->
  Forall (fun doc => ~ bad_item uname doc) items ->
  List.map Api.as_dict items = pre ++ d :: post ->
  Forall (fun d => convertible d = true) pre ->
  convertible d = false ->
  exists e : exn,
    Api.submit_route notifications clock
      (mk_request (Some (uname, tok)) (Some (JArr items))) w
    = (mk_world (user_index w)
         (es_log w ++ indexed_docs clock uname user (ticks w) pre)
         (kb_log w)
         (heap w ++ List.map (stamped uname user) pre ++ d :: post)
         (ticks w + length pre) (draws w),
       Raise e).
Proof.
  intros Hauth Hsub Hvalid Hsplit Hpre Hd.
  assert (Hne : items <> []).
  { intros ->. destruct pre; discriminate Hsplit. }
  rewrite (submit_accepted notifications clock w uname tok items user Hauth Hsub
             Hne Hvalid).
  assert (Hlen : length items = length pre + S (length post)).
  { rewrite <- (length_map Api.as_dict), Hsplit, length_app. reflexivity. }
  rewrite Hlen, List.seq_app, for_each_app, Hsplit.
  rewrite (write_loop_stretch uname user pre (heap w) (d :: post)
             (set_heap (fun h => h ++ pre ++ d :: post) w) eq_refl Hpre).
  cbn [seq]. rewrite for_each_step.
  cbn [user_index es_log kb_log ticks draws set_heap].
  match goal with
  | |- context [Api.index_doc clock uname user ?a ?w1] =>
      destruct (index_doc_raise clock uname user a w1) as [e He]
  end.
  { cbn [heap].
    replace (length (heap w) + length pre)
      with (length (heap w ++ List.map (stamped uname user) pre))
      by (rewrite length_app, length_map; reflexivity).
    rewrite List.app_assoc, obj_middle. exact Hd. }
  rewrite He. exists e. reflexivity.
Qed.

(** Every run of [/submit] either leaves the world as it was, or has
    allocated the records of a validated batch and written those before
    the first that cannot be converted - all of them, with the events of
    classification, when there is none. *)
Lemma submit_outcome (req : request) (w : world) :
  fst (Api.submit_route notifications clock req w) = w \/
  exists (uname tok : string) (items : list json) (user : User)
         (pre rest : list dict) (evs : list (string * payload)),
    authorization req = Some (uname, tok) /\
    snd (Api.check_auth uname tok w) = Ok true /\
    req_json req = Some (JArr items) /\
    Forall (fun doc => ~ bad_item uname doc) items /\
    submitter uname w = Some user /\
    List.map Api.as_dict items = pre ++ rest /\
    Forall (fun d => convertible d = true) pre /\
    (rest = [] \/ evs = []) /\
    fst (Api.submit_route notifications clock req w)
    = mk_world (user_index w)
        (es_log w ++ indexed_docs clock uname user (ticks w) pre)
        (kb_log w ++ evs)
        (heap w ++ List.map (stamped uname user) pre ++ rest)
        (ticks w + length pre) (draws w).
Proof.
  destruct (requires_auth_cases (Api.submit notifications clock) req w)
    as [E | ([uname tok] & Hcred & Hauth & E)].
  { left. unfold Api.submit_route. rewrite E. reflexivity. }
  cbn [fst snd] in Hauth.
  destruct req as [cred body]. cbn [authorization] in Hcred. subst cred.
  assert (Harr : (forall items, body <> Some (JArr items))
                 \/ exists items, body = Some (JArr items)).
  { destruct body as [[| b | n | f | s0 | items | d] |];
      try (left; discriminate). right. eexists; reflexivity. }
  destruct Harr as [Hna | [items ->]].
  { left. unfold Api.submit_route. rewrite E.
    destruct (submit_not_array notifications clock (uname, tok)
                (Some (uname, tok)) body w Hna) as [resp ->]. reflexivity. }
  destruct items as [| d0 rest0].
  { left. unfold Api.submit_route. rewrite E. reflexivity. }
  pose proof (validate_spec uname (d0 :: rest0) 0) as Hv.
  destruct (Api.validate uname 0 (d0 :: rest0)) as [msg |] eqn:Ev.
  { left. unfold Api.submit_route. rewrite E. unfold Api.submit.
    cbn [req_json truthy negb fst]. rewrite Ev. reflexivity. }
  remember (d0 :: rest0) as items eqn:Hitems.
  assert (Hne : items <> []) by (subst items; discriminate).
  destruct (authenticated_submitter uname tok w Hauth) as (user & Hsub & _).
  right. exists uname, tok, items, user.
  destruct (first_failure convertible (List.map Api.as_dict items))
    as [Hall | (pre & d & post & Hsplit & Hpre & Hd)].
  - exists (List.map Api.as_dict items), [].
    exists (List.flat_map
              (events_of_group
                 (heap w ++ List.map (stamped uname user)
                              (List.map Api.as_dict items)) uname user)
              (Api.group_docs notifications
                 (heap w ++ List.map (stamped uname user)
                              (List.map Api.as_dict items))
                 (seq (length (heap w)) (length items)))).
    rewrite (submit_ok_run w uname tok items user Hauth Hsub Hne Hv Hall).
    rewrite !List.app_nil_r, length_map. cbn [fst].
    repeat (split; [first [reflexivity | assumption | left; reflexivity] |]).
    reflexivity.
  - exists pre, (d :: post), [].
    destruct (submit_partial_run w uname tok items user pre post d
                Hauth Hsub Hv Hsplit Hpre Hd) as [e ->].
    rewrite List.app_nil_r. cbn [fst].
    repeat (split; [first [reflexivity | assumption | right; reflexivity] |]).
    reflexivity.
Qed.


(** X14: whatever the request and however it ends, [/submit] leaves the
    principals and the token draws as they were, and only adds: documents
    behind those in the store, dict objects behind those on the heap, events
    behind those in the notification log. *)
Theorem submit_only_appends (req : request) (w : world) :
  user_index (fst (Api.submit_route notifications clock req w)) = user_index w /\
  draws (fst (Api.submit_route notifications clock req w)) = draws w /\
  exists (docs : list es_doc) (objs : list dict) (evs : list (string * payload)),
    es_log (fst (Api.submit_route notifications clock req w)) = es_log w ++ docs /\
    heap (fst (Api.submit_route notifications clock req w)) = heap w ++ objs /\
    kb_log (fst (Api.submit_route notifications clock req w)) = kb_log w ++ evs.
Proof.
  destruct (submit_outcome req w)
    as [-> | (uname & tok & items & user & pre & rest & evs & _ & _ & _ & _ & _
              & _ & _ & _ & ->)].
  - split; [reflexivity |]. split; [reflexivity |].
    exists [], [], []. rewrite !List.app_nil_r. repeat split.
  - cbn [user_index draws es_log heap kb_log].
    split; [reflexivity |]. split; [reflexivity |].
    eexists. eexists. eexists. repeat split.
Qed.

Lemma good_item_host (uname : string) (doc : json) :
  ~ bad_item uname doc ->
  dict_get "hostIdentifier" (Api.as_dict doc) = Some (JStr uname).
Proof.
  destruct doc as [| | | | | | d]; simpl; try (intros H; exfalso; apply H; exact I).
  intros H. destruct (dict_get "hostIdentifier" d) as [v |].
  - destruct (str_eq uname v) eqn:E.
    + apply str_eq_true in E. subst v. reflexivity.
    + exfalso. apply H. intros [= ->]. simpl in E.
      rewrite String.eqb_refl in E. discriminate.
  - exfalso. apply H. discriminate.
Qed.

(** X15: every document that a [/submit] run adds to the store, however
    the run ends, has the type tag "osquery", lies in a partition named
    flock- and a date read from the clock, and carries the name of the
    authenticated caller both as its hostIdentifier and as its username. *)
Theorem submit_writes_own_documents (req : request) (w : world) :
  exists docs : list es_doc,
    es_log (fst (Api.submit_route notifications clock req w)) = es_log w ++ docs /\
    forall e : es_doc,
      In e docs ->
      exists (uname tok : string) (n : nat),
        authorization req = Some (uname, tok) /\
        snd (Api.check_auth uname tok w) = Ok true /\
        es_doc_type e = "osquery" /\
        es_index_name e = ("flock-" ++ strftime_date (clock n))%string /\
        dict_get "hostIdentifier" (es_body e) = Some (JStr uname) /\
        dict_get "username" (es_body e) = Some (JStr uname).
Proof.
  destruct (submit_outcome req w)
    as [-> | (uname & tok & items & user & pre & rest & evs & Hcred & Hauth & _
              & Hvalid & _ & Hsplit & _ & _ & ->)].
  - exists []. rewrite List.app_nil_r. split; [reflexivity | intros e []].
  - cbn [es_log]. eexists. split; [reflexivity |].
    intros e He. apply list_elem_of_In, list_elem_of_lookup in He.
    destruct He as [i Hi]. unfold indexed_docs in Hi.
    rewrite list_lookup_imap in Hi.
    destruct (pre !! i) as [d |] eqn:Ed; [| discriminate].
    injection Hi as <-.
    exists uname, tok, (ticks w + i).
    cbn [es_doc_type es_index_name es_body].
    split; [exact Hcred |]. split; [exact Hauth |].
    split; [reflexivity |]. split; [reflexivity |].
    split; [| apply stamped_username].
    rewrite stamped_keeps by discriminate.
    assert (Hd : In d (List.map Api.as_dict items)).
    { rewrite Hsplit. apply List.in_or_app. left.
      apply list_elem_of_In, list_elem_of_lookup. exists i. exact Ed. }
    apply List.in_map_iff in Hd. destruct Hd as (doc & <- & Hdoc).
    apply good_item_host. rewrite Forall_forall in Hvalid.
    apply Hvalid, list_elem_of_In, Hdoc.
Qed.

(** ** Classification: how many events *)

Lemma group_keys (h : list dict) (docs : list addr) :
  forall (nd : list (string * list addr)) (k : string),
    In k (List.map fst (fold_left (Api.collect notifications h) docs nd)) ->
    In k (List.map fst nd) \/
    (In k (Api.notification_names notifications) /\
     exists a, In a docs /\ field_is "name" k (obj h a) = true).
Proof.
  induction docs as [| a docs IH]; intros nd k Hk; simpl in Hk;
    [left; exact Hk |].
  destruct (IH _ k Hk) as [Hin | (Hn & b & Hb & Hf)].
  - unfold Api.collect in Hin.
    destruct (dict_get "name" (obj h a)) as [[| | | | key | |] |] eqn:En;
      try (left; exact Hin).
    destruct (str_in (JStr key) (Api.notification_names notifications)) eqn:Es;
      [| left; exact Hin].
    rewrite keys_append in Hin.
    destruct (group_of key nd); [left; exact Hin |].
    apply List.in_app_or in Hin. destruct Hin as [Hin | [<- | []]];
      [left; exact Hin |].
    right. split.
    + unfold str_in in Es. apply List.existsb_exists in Es.
      destruct Es as (x & Hx & E). apply str_eq_true in E.
      injection E as <-. exact Hx.
    + exists a. split; [left; reflexivity |].
      unfold field_is. rewrite En. apply String.eqb_refl.
  - right. split; [exact Hn |]. exists b. split; [right; exact Hb | exact Hf].
Qed.

Lemma event_kinds_sublist (h : list dict) (uname : string) (user : User)
  (nd : list (string * list addr)) :
  sublist (List.map fst (List.flat_map (events_of_group h uname user) nd))
    (List.map fst nd).
Proof.
  induction nd as [| [k v] nd IH]; simpl; [constructor |].
  rewrite List.map_app. unfold events_of_group at 1. cbn [fst snd].
  destruct v as [| a [| b v]]; simpl;
    [apply sublist_cons | apply sublist_skip | apply sublist_skip]; exact IH.
Qed.

(** X16: classification records at most one event per kind; every event is
    of an osquery kind of the catalog that is the name of some record of the
    batch; so a batch, however long, gives no more events than there are
    osquery kinds. *)
Theorem classify_one_event_per_kind
  (w : world) (uname : string) (user : User) (docs : list addr) :
  exists new : list (string * payload),
    Api.classify notifications uname user docs w
    = (set_kb_log (fun l => l ++ new) w, Ok tt) /\
    NoDup (List.map fst new) /\
    (forall ev : string * payload,
        In ev new ->
        In (fst ev) (Api.notification_names notifications) /\
        exists a, In a docs /\ field_is "name" (fst ev) (obj (heap w) a) = true) /\
    length new <= length (Api.notification_names notifications).
Proof.
  eexists. split; [apply classify_run |].
  set (nd := Api.group_docs notifications (heap w) docs).
  set (new := List.flat_map (events_of_group (heap w) uname user) nd).
  assert (Hnd : NoDup (List.map fst nd)).
  { apply group_docs_NoDup. apply NoDup_nil_2. }
  assert (Hsub : sublist (List.map fst new) (List.map fst nd))
    by apply event_kinds_sublist.
  assert (Hkeys : forall k, In k (List.map fst nd) ->
            In k (Api.notification_names notifications) /\
            exists a, In a docs /\ field_is "name" k (obj (heap w) a) = true).
  { intros k Hk. destruct (group_keys (heap w) docs [] k Hk) as [[] | H].
    exact H. }
  split; [exact (sublist_NoDup _ _ Hnd Hsub) |]. split.
  - intros ev Hev. apply Hkeys.
    apply list_elem_of_In. eapply elem_of_sublist; [| exact Hsub].
    apply list_elem_of_In, List.in_map, Hev.
  - rewrite <- (length_map fst new).
    transitivity (length (List.map fst nd)); [apply sublist_length, Hsub |].
    apply submseteq_length, NoDup_submseteq; [exact Hnd |].
    intros k Hk. apply list_elem_of_In. apply Hkeys.
    apply list_elem_of_In, Hk.
Qed.

(** ** The answers *)



(** ** Submitting a batch again *)








(** ** [gateway/app.py] *)

Lemma gateway_check_auth_iff (self : Gateway.Tokens) (uname password : string) :
  Gateway.check_auth self uname password = true
  <-> Gateway.tokens self !! uname = Some password.
Proof.
  unfold Gateway.check_auth, Gateway.get, Gateway.exists_.
  destruct (Gateway.tokens self !! uname) as [t |] eqn:E.
  - rewrite bool_decide_eq_true_2 by (exists t; reflexivity). simpl.
    rewrite bool_decide_eq_true. split; congruence.
  - rewrite bool_decide_eq_false_2 by (intros [t Ht]; discriminate).
    simpl. split; discriminate.
Qed.

Lemma gateway_exists_iff (self : Gateway.Tokens) (uname : string) :
  Gateway.exists_ self uname = false <-> Gateway.tokens self !! uname = None.
Proof.
  unfold Gateway.exists_. rewrite bool_decide_eq_false.
  destruct (Gateway.tokens self !! uname) as [t |]; split; intros H.
  - exfalso. apply H. exists t. reflexivity.
  - discriminate.
  - reflexivity.
  - intros [t Ht]. discriminate.
Qed.

(** X19: the gateway registers a username that is not empty and has no
    token yet: it answers with the drawn token, which the credential check
    then accepts for that username, and it leaves the token of every other
    username as it was. *)
Theorem gateway_register_then_authenticate
  (self : Gateway.Tokens) (uname : string) :
  uname <> "" ->
  Gateway.tokens self !! uname = None ->
  exists self' : Gateway.Tokens,
    Gateway.register token_hex self (Some uname)
    = (self', ([("auth_token", JStr (token_hex (Gateway.gw_draws self)));
                ("error", JBool false)], 200%Z)) /\
    Gateway.check_auth self' uname (token_hex (Gateway.gw_draws self)) = true /\
    (forall other : string,
        other <> uname ->
        Gateway.tokens self' !! other = Gateway.tokens self !! other).
Proof.
  intros Hne Hnew. unfold Gateway.register.
  destruct (String.eqb_spec uname ""); [contradiction |].
  rewrite (proj2 (gateway_exists_iff self uname) Hnew).
  unfold Gateway.generate. eexists. split; [reflexivity |]. split.
  - apply gateway_check_auth_iff. cbn [Gateway.tokens].
    apply lookup_insert_eq.
  - intros other Hother. cbn [Gateway.tokens].
    apply lookup_insert_ne. congruence.
Qed.

(** X20: no [/register] call of the gateway, whatever the username in the
    form, replaces or removes a token that is stored; so credentials that
    the check accepted before are accepted after.  Without a username, or
    with an empty one, the call changes nothing at all. *)
Theorem gateway_register_keeps_tokens
  (self : Gateway.Tokens) (form : option string) :
  (forall uname t : string,
      Gateway.tokens self !! uname = Some t ->
      Gateway.tokens (fst (Gateway.register token_hex self form)) !! uname
      = Some t) /\
  (forall uname password : string,
      Gateway.check_auth self uname password = true ->
      Gateway.check_auth (fst (Gateway.register token_hex self form))
        uname password = true) /\
  (form = None \/ form = Some "" ->
   Gateway.register token_hex self form
   = (self, ([("error", JBool true);
              ("error_msg", JStr "You must provide a username")], 400%Z))).
Proof.
  assert (Hkeep : forall uname t : string,
            Gateway.tokens self !! uname = Some t ->
            Gateway.tokens (fst (Gateway.register token_hex self form)) !! uname
            = Some t).
  { intros uname t Ht. unfold Gateway.register.
    destruct form as [u |]; [| exact Ht].
    destruct (String.eqb u ""); [exact Ht |].
    destruct (Gateway.exists_ self u) eqn:Ex; [exact Ht |].
    apply gateway_exists_iff in Ex. cbn [fst Gateway.generate Gateway.tokens].
    rewrite lookup_insert_ne; [exact Ht | congruence]. }
  split; [exact Hkeep |]. split.
  - intros uname password H. apply gateway_check_auth_iff.
    apply Hkeep. apply gateway_check_auth_iff. exact H.
  - intros [-> | ->]; reflexivity.
Qed.

(** X21: the gateway's [/submit] never accepts anything: it answers 401
    with an empty body unless the password sent is the token stored for the
    username, and then 400 "Not implemented yet"; the registry is left as it
    was. *)
Theorem gateway_submit_never_accepts
  (self : Gateway.Tokens) (auth : option (string * string)) :
  Gateway.submit_route self auth
  = (self,
     if match auth with
        | Some (uname, password) =>
            bool_decide (Gateway.tokens self !! uname = Some password)
        | None => false
        end
     then ([("error", JBool true); ("error_msg", JStr "Not implemented yet")],
           400%Z)
     else ([], 401%Z)).
Proof.
  unfold Gateway.submit_route, Gateway.requires_auth.
  destruct auth as [[uname password] |]; [| reflexivity].
  destruct (Gateway.check_auth self uname password) eqn:E.
  - apply gateway_check_auth_iff in E.
    rewrite bool_decide_eq_true_2 by exact E. reflexivity.
  - rewrite bool_decide_eq_false_2; [reflexivity |].
    intros H. apply gateway_check_auth_iff in H. congruence.
Qed.

End MoreProperties.

(** ** The theorems at concrete inputs *)

(** [int], [utcfromtimestamp] and the formats on known values. *)
Example ex_utc0 :
  option_map strftime_iso (match utcfromtimestamp 0 with Ok d => Some d | _ => None end)
  = Some "1970-01-01T00:00:00.000Z".
Proof. vm_compute. reflexivity. Qed.

Example ex_utc1 :
  option_map strftime_iso (match utcfromtimestamp 1588000000 with Ok d => Some d | _ => None end)
  = Some "2020-04-27T15:06:40.000Z".
Proof. vm_compute. reflexivity. Qed.

Example ex_utc2 :
  option_map strftime_iso (match utcfromtimestamp 951782400 with Ok d => Some d | _ => None end)
  = Some "2000-02-29T00:00:00.000Z".
Proof. vm_compute. reflexivity. Qed.

Example ex_utc3 :
  option_map strftime_iso (match utcfromtimestamp MAX_TIMESTAMP with Ok d => Some d | _ => None end)
  = Some "9999-12-31T23:59:59.000Z".
Proof. vm_compute. reflexivity. Qed.

Example ex_utc4 :
  option_map strftime_iso (match utcfromtimestamp MIN_TIMESTAMP with Ok d => Some d | _ => None end)
  = Some "0001-01-01T00:00:00.000Z".
Proof. vm_compute. reflexivity. Qed.

Example ex_int1 : int_of_str " -1_000 " = Some (-1000)%Z.
Proof. vm_compute. reflexivity. Qed.
Example ex_int2 : int_of_str "abc" = None.
Proof. vm_compute. reflexivity. Qed.
Example ex_int3 : str_of_nat 12 = "12" /\ str_of_nat 0 = "0".
Proof. vm_compute. split; reflexivity. Qed.


Lemma C1_witness :
  osquery_kind catalog0 "usb_devices" /\
  1 < length (records_of_kind (heap w_burst) "usb_devices" [0; 1; 2; 3]) /\
  exists new : list (string * payload),
    Api.classify catalog0 "alice" alice [0; 1; 2; 3] w_burst
    = (set_kb_log (fun l => l ++ new) w_burst, Ok tt) /\
    events_of_kind "usb_devices" new
    = [("usb_devices",
        Lit [("type", JStr "summary"); ("username", JStr "alice");
             ("name", JStr "Alice"); ("added_count", JNum 1);
             ("removed_count", JNum 1); ("other_count", JNum 1)])].
Proof.
  assert (HK : osquery_kind catalog0 "usb_devices").
  { exists (Api.mk_settings "osquery" true). split; [left |]; reflexivity. }
  assert (Hlen : 1 < length (records_of_kind (heap w_burst) "usb_devices"
                               [0; 1; 2; 3])).
  { vm_compute. lia. }
  split; [exact HK |]. split; [exact Hlen |].
  exact (C1_burst_summary catalog0 w_burst "alice" alice [0; 1; 2; 3]
           "usb_devices" HK Hlen).
Defined.

Lemma C2_witness :
  osquery_kind catalog0 "launchd" /\
  exists (new : list (string * payload)) (w' : world),
    Api.classify catalog0 "alice" alice [0; 1; 2; 3] w_burst = (w', Ok tt) /\
    kb_log w' = kb_log w_burst ++ new /\
    heap w' = heap w_burst /\
    (forall a : addr,
        records_of_kind (heap w_burst) "launchd" [0; 1; 2; 3] = [a] ->
        events_of_kind "launchd" new = [("launchd", Ref a)] /\
        payload_dict (heap w') (Ref a) = obj (heap w_burst) a) /\
    (records_of_kind (heap w_burst) "launchd" [0; 1; 2; 3] = [] ->
     events_of_kind "launchd" new = []).
Proof.
  assert (HK : osquery_kind catalog0 "launchd").
  { exists (Api.mk_settings "osquery" false).
    split; [right; right; left |]; reflexivity. }
  split; [exact HK |].
  exact (C2_singleton_event catalog0 w_burst "alice" alice [0; 1; 2; 3]
           "launchd" HK).
Defined.

Example classify_burst_log :
  kb_log (fst (Api.classify catalog0 "alice" alice [0; 1; 2; 3] w_burst))
  = [("usb_devices",
      Lit [("type", JStr "summary"); ("username", JStr "alice");
           ("name", JStr "Alice"); ("added_count", JNum 1);
           ("removed_count", JNum 1); ("other_count", JNum 1)]);
     ("launchd", Ref 2)].
Proof. vm_compute. reflexivity. Qed.

Lemma C3_witness :
  snd (Api.check_auth "alice" "s3cret" w0) = Ok true /\
  exists msg : string,
    Api.submit_route catalog0 clock0
      (as_alice (JArr [JObj [("hostIdentifier", JStr "alice")];
                       JObj [("hostIdentifier", JStr "bob")];
                       JNum 7])) w0
    = (w0, Ok ([("error", JBool true); ("error_msg", JStr msg)], 400%Z)).
Proof.
  assert (Hauth : snd (Api.check_auth "alice" "s3cret" w0) = Ok true)
    by reflexivity.
  split; [exact Hauth |].
  destruct (C3_invalid_batch_rejected catalog0 clock0 w0 "alice" "s3cret"
              (Some (JArr [JObj [("hostIdentifier", JStr "alice")];
                           JObj [("hostIdentifier", JStr "bob")];
                           JNum 7])) Hauth) as (msg & Hrun & _).
  - right. eexists. exists (JNum 7).
    split; [reflexivity |]. split; [| exact I].
    right; right; left; reflexivity.
  - exists msg. exact Hrun.
Defined.

Example submit_bad_host :
  Api.submit_route catalog0 clock0
    (as_alice (JArr [JObj [("hostIdentifier", JStr "alice")];
                     JObj [("hostIdentifier", JStr "bob")];
                     JNum 7])) w0
  = (w0, Ok ([("error", JBool true);
              ("error_msg",
               JStr "Item 1 does not contain the correct hostIdentifier")],
             400%Z)).
Proof. vm_compute. reflexivity. Qed.

Lemma C9_witness :
  snd (Api.check_auth "alice" "s3cret" w0) = Ok true /\
  Api.submit_route catalog0 clock0 (as_alice (JArr [])) w0
  = (w0, Ok ([("error", JBool true);
              ("error_msg", JStr "Invalid JSON object")], 400%Z))
  /\
  Api.submit_flock_logs_route (as_alice (JArr [])) w0
  = (w0, Ok ([("processed_count", JNum 0); ("error", JBool false)], 200%Z)).
Proof.
  assert (Hauth : snd (Api.check_auth "alice" "s3cret" w0) = Ok true)
    by reflexivity.
  split; [exact Hauth |].
  exact (C9_empty_batch catalog0 clock0 w0 "alice" "s3cret" Hauth).
Defined.


Example check_auth_wrong_secret :
  Api.check_auth "alice" "S3cret" w0 = (w0, Ok false) /\
  Api.check_auth "bob" "s3cret" w0 = (w0, Ok false) /\
  Gateway.check_auth gw_bob "bob" "0123456789abcdef0123456789abcde0" = true /\
  Gateway.check_auth gw_bob "bob" "0123456789abcdef0123456789abcde1" = false /\
  Gateway.check_auth gw_bob "alice" "0123456789abcdef0123456789abcde0" = false.
Proof. repeat split; vm_compute; reflexivity. Qed.

(** The world after a first registration of "bob". *)
Example register_first :
  Api.register token_hex0 (mk_request None (Some (JObj bob_body))) w0
  = (mk_world [alice; mk_User "bob" "Bob" "0123456789abcdef0123456789abcde0"]
       [] [("user_registered", Lit bob_body)] [] 0 1,
     Ok ([("auth_token", JStr "0123456789abcdef0123456789abcde0");
          ("error", JBool false)], 200%Z)).
Proof. vm_compute. reflexivity. Qed.




Example convert_known_time :
  heap (fst (Api.convert_unixtime 0 w_ts))
  = [[("hostIdentifier", JStr "alice"); ("unixTime", JStr "1588000000");
      ("@timestamp", JStr "2020-04-27T15:06:40.000Z")]].
Proof. vm_compute. reflexivity. Qed.


Example convert_other_failures :
  py_int JNull = Raise TypeError /\
  py_int (JStr "12.5") = Raise ValueError /\
  (exists e, utcfromtimestamp 1588000000000 = Raise e).
Proof.
  split; [reflexivity |]. split; [vm_compute; reflexivity |].
  eexists. vm_compute. reflexivity.
Qed.


Example submit_batch0_written :
  es_log (fst (Api.submit_route catalog0 clock0 (as_alice (JArr batch0)) w0))
  = [mk_es_doc "flock-2020-04-27" "osquery"
       [("hostIdentifier", JStr "alice"); ("name", JStr "usb_devices");
        ("unixTime", JStr "1588000000");
        ("@timestamp", JStr "2020-04-27T15:06:40.000Z");
        ("username", JStr "alice"); ("user_name", JStr "Alice")];
     mk_es_doc "flock-2020-04-27" "osquery"
       [("hostIdentifier", JStr "alice"); ("username", JStr "alice");
        ("user_name", JStr "Alice")]].
Proof. vm_compute. reflexivity. Qed.



(** The event of the usb_devices record of [batch0] refers to the record as
    the write loop left it, which is not the record as it was submitted. *)
Example submit_batch0_event :
  kb_log (fst (Api.submit_route catalog0 clock0 (as_alice (JArr batch0)) w0))
  = [("usb_devices", Ref 0)] /\
  obj (heap (fst (Api.submit_route catalog0 clock0 (as_alice (JArr batch0)) w0))) 0
  = [("hostIdentifier", JStr "alice"); ("name", JStr "usb_devices");
     ("unixTime", JStr "1588000000");
     ("@timestamp", JStr "2020-04-27T15:06:40.000Z");
     ("username", JStr "alice"); ("user_name", JStr "Alice")].
Proof. split; vm_compute; reflexivity. Qed.

(** ** The further properties at concrete inputs *)

Lemma register_input_rejected_witness :
  Api.register token_hex0 (mk_request None (Some (JObj blank_body))) w0
  = (w0, Ok ([("error", JBool true);
              ("error_msg",
               JStr "Usernames must only contain letters, numbers, '-', or '_'")],
             400%Z)).
Proof.
  apply (proj2 (proj2 (register_input_rejected token_hex0 w0 None))
           blank_body "bad name" " "%char).
  - reflexivity.
  - right; right; right; left; reflexivity.
  - reflexivity.
Defined.

Lemma register_then_authenticate_witness :
  exists w' : world,
    Api.register token_hex0 carol_request w0
    = (w', Ok ([("auth_token", JStr (token_hex0 0)); ("error", JBool false)],
               200%Z)) /\
    user_index w' = [alice; mk_User "carol-01" "Carol  C." (token_hex0 0)] /\
    Api.check_auth "carol-01" (token_hex0 0) w' = (w', Ok true).
Proof.
  destruct (register_then_authenticate token_hex0 w0 None carol_body "carol-01")
    as (w' & Hrun & Hidx & _ & _ & Hauth).
  - reflexivity.
  - discriminate.
  - reflexivity.
  - right. eexists. reflexivity.
  - intros x [<- | []]. discriminate.
  - exists w'. split; [exact Hrun |]. split; [exact Hidx | exact Hauth].
Defined.

Example clean_name_carol : Api.clean_name "Carol {*_*} C." = "Carol  C.".
Proof. vm_compute. reflexivity. Qed.



Lemma unknown_credentials_refused_witness :
  Api.ping_route (mk_request (Some ("alice", "guess")) None) w0
  = (w0, Ok ([], 401%Z)) /\
  Api.submit_route catalog0 clock0
    (mk_request (Some ("alice", "guess")) (Some (JArr batch0))) w0
  = (w0, Ok ([], 401%Z)).
Proof.
  destruct (unknown_credentials_refused catalog0 clock0 w0
              (Some ("alice", "guess")) (Some (JArr batch0)))
    as (_ & Hsubmit & _).
  - intros uname tok [= <- <-] (x & [<- | []] & _ & Ht). discriminate.
  - destruct (unknown_credentials_refused catalog0 clock0 w0
                (Some ("alice", "guess")) None) as (Hping & _).
    + intros uname tok [= <- <-] (x & [<- | []] & _ & Ht). discriminate.
    + split; [exact Hping | exact Hsubmit].
Defined.

Lemma ping_answers_witness :
  NoDup (List.map username (user_index w0)) /\
  exists ok : bool,
    Api.ping_route (mk_request (Some ("alice", "s3cret")) None) w0
    = (w0, Ok (if ok then ([("error", JBool false)], 200%Z) else ([], 401%Z)))
    /\
    (ok = true <->
     exists x, In x (user_index w0) /\ username x = "alice"
               /\ token x = "s3cret").
Proof.
  assert (Hnd : NoDup (List.map username (user_index w0))).
  { simpl. apply NoDup_singleton. }
  split; [exact Hnd |].
  exact (ping_answers w0 "alice" "s3cret" None Hnd).
Defined.

Example ping_alice :
  Api.ping_route (mk_request (Some ("alice", "s3cret")) None) w0
  = (w0, Ok ([("error", JBool false)], 200%Z)).
Proof. vm_compute. reflexivity. Qed.

Lemma get_name_of_caller_witness :
  exists user : User,
    In user (user_index w0) /\ username user = "alice" /\
    token user = "s3cret" /\
    Api.get_name ("alice", "s3cret") w0 = (w0, Ok (JStr (name user))).
Proof.
  apply (get_name_of_caller w0 "alice" "s3cret").
  - simpl. apply NoDup_singleton.
  - reflexivity.
Defined.

Lemma invalid_logs_rejected_witness :
  exists msg : string,
    Api.submit_flock_logs_route (as_alice (JArr [log_server_off; log_twig_bare]))
      w0
    = (w0, Ok ([("error", JBool true); ("error_msg", JStr msg)], 400%Z)).
Proof.
  destruct (invalid_logs_rejected w0 "alice" "s3cret"
              (Some (JArr [log_server_off; log_twig_bare])))
    as (msg & Hrun & _).
  - reflexivity.
  - right. exists [log_server_off; log_twig_bare], log_twig_bare.
    split; [reflexivity |]. split; [right; left; reflexivity |].
    right. right. split; [left; reflexivity | reflexivity].
  - exists msg. exact Hrun.
Defined.

Example logs_bare_twig_message :
  Api.submit_flock_logs_route (as_alice (JArr [log_server_off; log_twig_bare]))
    w0
  = (w0, Ok ([("error", JBool true);
              ("error_msg",
               JStr "Item 1 is about a twig, but does not contain a twig_id field")],
             400%Z)).
Proof. vm_compute. reflexivity. Qed.

Lemma log_batch0_valid : Forall (fun doc => ~ bad_log_item doc) log_batch0.
Proof.
  unfold log_batch0.
  repeat constructor; intros [H | [H | [[H | H] H']]];
    (discriminate H || discriminate H').
Defined.

Lemma logs_notified_witness :
  Api.submit_flock_logs_route (as_alice (JArr log_batch0)) w0
  = (set_kb_log
       (fun l => l ++ [("server_disabled",
                        Lit [("username", JStr "alice"); ("name", JStr "Alice")]);
                       ("twigs_enabled",
                        Lit [("username", JStr "alice"); ("name", JStr "Alice");
                             ("twig_ids",
                              JArr [JStr "usb_devices"; JStr "launchd"])])])
       w0,
     Ok ([("processed_count", JNum 3); ("error", JBool false)], 200%Z)).
Proof.
  apply (logs_notified w0 "alice" "s3cret" log_batch0).
  - reflexivity.
  - exact log_batch0_valid.
  - repeat constructor.
Defined.

Lemma logs_without_twig_ids_raise_witness :
  Api.submit_flock_logs_route
    (as_alice (JArr ([log_server_off] ++ log_twigs_bare :: log_batch0))) w0
  = (set_kb_log
       (fun l => l ++ [("server_disabled",
                        Lit [("username", JStr "alice"); ("name", JStr "Alice")])])
       w0,
     Raise KeyError).
Proof.
  apply (logs_without_twig_ids_raise w0 "alice" "s3cret"
           [log_server_off] log_batch0 log_twigs_bare).
  - reflexivity.
  - unfold log_batch0, log_server_off, log_twigs_bare.
    repeat constructor; intros [H | [H | [[H | H] H']]];
      (discriminate H || discriminate H').
  - repeat constructor.
  - reflexivity.
Defined.


Example error_log_headers :
  Api.ed_headers (Api.log_details long_request "Invalid JSON object")
  = [("Content-Type", "application/json")] /\
  Api.ed_username (Api.log_details long_request "Invalid JSON object")
  = Some "alice".
Proof. split; vm_compute; reflexivity. Qed.


Lemma submit_writes_own_documents_witness :
  exists docs : list es_doc,
    es_log (fst (Api.submit_route catalog0 clock0 batch0_request w0))
    = es_log w0 ++ docs /\
    forall e : es_doc,
      In e docs ->
      exists (uname tok : string) (n : nat),
        authorization batch0_request = Some (uname, tok) /\
        snd (Api.check_auth uname tok w0) = Ok true /\
        es_doc_type e = "osquery" /\
        es_index_name e = ("flock-" ++ strftime_date (clock0 n))%string /\
        dict_get "hostIdentifier" (es_body e) = Some (JStr uname) /\
        dict_get "username" (es_body e) = Some (JStr uname).
Proof. exact (submit_writes_own_documents catalog0 clock0 batch0_request w0). Defined.

Lemma classify_one_event_per_kind_witness :
  exists new : list (string * payload),
    Api.classify catalog0 "alice" alice [0; 1; 2; 3] w_burst
    = (set_kb_log (fun l => l ++ new) w_burst, Ok tt) /\
    NoDup (List.map fst new) /\
    length new <= length (Api.notification_names catalog0).
Proof.
  destruct (classify_one_event_per_kind catalog0 w_burst "alice" alice
              [0; 1; 2; 3]) as (new & Hrun & Hnd & _ & Hlen).
  exists new. split; [exact Hrun |]. split; [exact Hnd | exact Hlen].
Defined.



Example submit_batch0_twice :
  List.map es_index_name
    (es_log (fst (Api.submit_route catalog0 clock0 batch0_request
                    (fst (Api.submit_route catalog0 clock0 batch0_request w0)))))
  = ["flock-2020-04-27"; "flock-2020-04-27"; "flock-2020-04-27";
     "flock-2020-04-27"] /\
  kb_log (fst (Api.submit_route catalog0 clock0 batch0_request
                 (fst (Api.submit_route catalog0 clock0 batch0_request w0))))
  = [("usb_devices", Ref 0); ("usb_devices", Ref 2)].
Proof. split; vm_compute; reflexivity. Qed.

Lemma gateway_register_then_authenticate_witness :
  exists self' : Gateway.Tokens,
    Gateway.register token_hex0 gw_bob (Some "carol")
    = (self', ([("auth_token", JStr (token_hex0 1)); ("error", JBool false)],
               200%Z)) /\
    Gateway.check_auth self' "carol" (token_hex0 1) = true /\
    Gateway.tokens self' !! "bob" = Gateway.tokens gw_bob !! "bob".
Proof.
  destruct (gateway_register_then_authenticate token_hex0 gw_bob "carol")
    as (self' & Hrun & Hauth & Hothers).
  - discriminate.
  - vm_compute. reflexivity.
  - exists self'. split; [exact Hrun |]. split; [exact Hauth |].
    apply Hothers. discriminate.
Defined.

Lemma gateway_register_keeps_tokens_witness :
  Gateway.check_auth gw_bob "bob" "0123456789abcdef0123456789abcde0" = true /\
  Gateway.check_auth (fst (Gateway.register token_hex0 gw_bob (Some "bob")))
    "bob" "0123456789abcdef0123456789abcde0" = true /\
  Gateway.check_auth (fst (Gateway.register token_hex0 gw_bob (Some "carol")))
    "bob" "0123456789abcdef0123456789abcde0" = true.
Proof.
  assert (Hauth : Gateway.check_auth gw_bob "bob"
                    "0123456789abcdef0123456789abcde0" = true).
  { vm_compute. reflexivity. }
  split; [exact Hauth |]. split.
  - exact (proj1 (proj2 (gateway_register_keeps_tokens token_hex0 gw_bob
                           (Some "bob"))) _ _ Hauth).
  - apply (proj1 (proj2 (gateway_register_keeps_tokens token_hex0 gw_bob
                           (Some "carol")))). exact Hauth.
Defined.
